(** * Internet monitor dashboard: a shallow embedding of
      [internet_monitor.py] and [app.py], with the properties of the
      monitoring core stated over it.

    The monitor object is a record threaded through every method; what the
    methods read from the host and the network (HTTP answers, clocks, byte
    counters, the connection table) comes from a [World] record, one per
    call of [get_all_stats].  Python floats are IEEE binary64 values,
    embedded through the Standard Library's [SpecFloat]. *)

From Stdlib Require Import ZArith List String Ascii Bool Lia.
From Stdlib Require Import Floats.SpecFloat.
From Stdlib Require Import DecimalString.
Import ListNotations.

Local Open Scope string_scope.
Local Open Scope Z_scope.

(** ** Python floats and the arithmetic the monitor performs on them *)

Module PyFloat.

(** A Python [float] is a binary64 number. *)
Definition float := spec_float.

Definition prec : Z := 53.
Definition emax : Z := 1024.

Definition fdiv (x y : float) : float := SFdiv prec emax x y.
Definition fmul (x y : float) : float := SFmul prec emax x y.
Definition fsub (x y : float) : float := SFsub prec emax x y.

(** [float(n)] for a Python [int]: the nearest binary64, ties to even. *)
Definition of_int (n : Z) : float := binary_normalize prec emax n 0 false.

(** The integer [n] as an exact dyadic, not yet rounded to 53 bits. *)
Definition exact_int (n : Z) : float :=
  match n with
  | Z0 => S754_zero false
  | Zpos p => S754_finite false p 0
  | Zneg p => S754_finite true p 0
  end.

(** [a / b] on two Python [int]s (true division), [b] positive: the
    correctly rounded quotient.  Python raises [OverflowError] where this
    yields an infinity; that needs a quotient above 1.7e308. *)
Definition int_truediv (a b : Z) : float := fdiv (exact_int a) (exact_int b).

(** [x / n] and [x * n] with a small [int] on the right: the [int] is
    converted first. *)
Definition fdiv_int (x : float) (n : Z) : float := fdiv x (of_int n).
Definition fmul_int (x : float) (n : Z) : float := fmul x (of_int n).

(** Nearest integer to [n / d] for [d > 0], halves to the even neighbour. *)
Definition div_half_even (n d : Z) : Z :=
  let q := n / d in
  let r := n mod d in
  match 2 * r ?= d with
  | Lt => q
  | Gt => q + 1
  | Eq => if Z.even q then q else q + 1
  end.

(** The magnitude of a finite [m * 2^e] times [10^2], rounded to an
    integer. *)
Definition hundredths (m : positive) (e : Z) : Z :=
  match e with
  | Zneg k => div_half_even (Zpos m * 100) (2 ^ Zpos k)
  | _ => Zpos m * 100 * 2 ^ e
  end.

(** [round(x, 2)]: CPython prints the exact binary value of [x] with two
    decimals (correctly rounded, halves to even) and reads the decimal
    back as the nearest binary64.  Zeros, infinities and NaN are returned
    unchanged, and the sign of [x] is kept. *)
Definition round2 (x : float) : float :=
  match x with
  | S754_finite s m e =>
      match hundredths m e with
      | Zpos h => fdiv (S754_finite s h 0) (S754_finite false 100 0)
      | _ => S754_zero s
      end
  | _ => x
  end.

(** [x > y] on floats. *)
Definition fgt (x y : float) : bool := SFltb y x.

End PyFloat.


(** ** Values exchanged with the host *)

(** The text of a Python exception, as [str(e)] prints it. *)
Definition exn := string.

Inductive result (A : Type) : Type :=
| Ok (a : A)
| Err (e : exn).
Arguments Ok {A} a.
Arguments Err {A} e.

(** [datetime.now()]: the calendar fields of a local wall-clock reading. *)
Record datetime := {
  year : nat; month : nat; day : nat;
  hour : nat; minute : nat; second : nat; microsecond : nat
}.

Definition digit (n : nat) : ascii := ascii_of_nat (48 + n mod 10).

Definition pad2 (n : nat) (k : string) : string :=
  String (digit (n / 10)) (String (digit n) k).

Definition pad4 (n : nat) (k : string) : string :=
  String (digit (n / 1000)) (String (digit (n / 100)) (pad2 n k)).

(** [dt.strftime('%Y-%m-%d %H:%M:%S')], for the four-digit years that
    [datetime.now()] yields. *)
Definition strftime (dt : datetime) : string :=
  pad4 (year dt) (String "-" (pad2 (month dt) (String "-" (pad2 (day dt)
    (String " " (pad2 (hour dt) (String ":" (pad2 (minute dt)
      (String ":" (pad2 (second dt) EmptyString)))))))))).

(** What [requests.get(url, timeout=..., headers=...)] does for one URL,
    together with the two [time.time()] readings taken around it. *)
Inductive HttpOutcome :=
| Response (code : Z) (start finish : PyFloat.float)
| ConnectionError
| Timeout
| RequestException (e : exn).

(** [addrs] of [netifaces.ifaddresses]: per address family, the ['addr']
    entries in order; [None] when the family is not a key of the dict. *)
Record Ifaddresses := {
  AF_INET : option (list string);
  AF_LINK : option (list string)
}.

Record addr := { ip : string; port : Z }.

(** One entry of [psutil.net_connections(kind='inet')]. *)
Record sconn := {
  conn_status : string;
  conn_pid : option Z;
  conn_laddr : addr;
  conn_raddr : option addr
}.

Definition CONN_ESTABLISHED : string := "ESTABLISHED".

(** [psutil.Process(pid)] followed by [p.name()]: the name, one of the two
    exceptions the loop handles ([ZombieProcess] is a [NoSuchProcess]), or
    any other exception, which leaves the loop. *)
Inductive ProcessLookup :=
| ProcessName (name : string)
| NoSuchProcess
| AccessDenied
| OtherError (e : exn).

(** When the speed thread makes its [speed_result.update(...)], relative
    to the call that started it: before [join(timeout=8)] returns, after
    the join timed out but before [get_all_stats] returns, or after
    [get_all_stats] has returned. *)
Inductive ThreadEnd := BeforeJoin | BeforeReturn | AfterReturn.

(** Everything one call of [get_all_stats] reads from outside the
    monitor object. *)
Record World := {
  requests_get : string -> HttpOutcome;
  (** [datetime.now()] in [check_internet_availability] *)
  now_on_failure : datetime;
  (** [speedtest.Speedtest(timeout=5)], then [st.get_best_server()] *)
  speedtest_best_server : result unit;
  (** [st.download()] and [st.upload()], in bit/s *)
  speedtest_download : result PyFloat.float;
  speedtest_upload : result PyFloat.float;
  speed_thread_end : ThreadEnd;
  (** [datetime.now()] for the snapshot's [timestamp] *)
  now_on_assembly : datetime;
  gethostname : string;
  netifaces_interfaces : result (list string);
  netifaces_ifaddresses : string -> result Ifaddresses;
  (** [bytes_sent] and [bytes_recv] of [psutil.net_io_counters()] *)
  net_io_counters : result (Z * Z);
  net_connections : result (list sconn);
  process_lookup : Z -> ProcessLookup;
  (** [datetime.now()] when the restoration is logged *)
  now_on_restore : datetime
}.

(** ** The event log *)

Inductive level := INFO | WARNING | ERROR | CRITICAL.

(** The messages the monitor formats, with the values interpolated into
    them. *)
Inductive message :=
| HTTP_Error (status_code : Z) (url : string)
| Request_exception (e : exn)
| INTERNET_DOWN_Initial_detection
| Speedtest_failed (e : exn)
| Network_info_error (e : exn)
| Process_scan_error (e : exn)
| External_info_update_failed (e : exn)
| INTERNET_RESTORED_after (now onset : datetime).

Definition LogRecord : Type := level * message.

(** ** The monitor object *)

Record TrafficStats := { sent : Z; recv : Z }.

(** The fields of [InternetMonitor].  [logger] holds the records appended
    to [internet_events.log]; [http_trace] lists the URLs on which
    [check_internet_availability] has issued a GET, oldest first. *)
Record InternetMonitor := {
  logger : list LogRecord;
  last_down_time : option datetime;
  traffic_stats : TrafficStats;
  external_ip : string;
  provider : string;
  http_trace : list string
}.

Definition log (l : level) (m : message) (self : InternetMonitor)
  : InternetMonitor :=
  {| logger := logger self ++ [(l, m)];
     last_down_time := last_down_time self;
     traffic_stats := traffic_stats self;
     external_ip := external_ip self;
     provider := provider self;
     http_trace := http_trace self |}.

Definition set_last_down_time (t : option datetime) (self : InternetMonitor)
  : InternetMonitor :=
  {| logger := logger self;
     last_down_time := t;
     traffic_stats := traffic_stats self;
     external_ip := external_ip self;
     provider := provider self;
     http_trace := http_trace self |}.

Definition set_traffic_stats (t : TrafficStats) (self : InternetMonitor)
  : InternetMonitor :=
  {| logger := logger self;
     last_down_time := last_down_time self;
     traffic_stats := t;
     external_ip := external_ip self;
     provider := provider self;
     http_trace := http_trace self |}.

Definition set_external_ip (a : string) (self : InternetMonitor)
  : InternetMonitor :=
  {| logger := logger self;
     last_down_time := last_down_time self;
     traffic_stats := traffic_stats self;
     external_ip := a;
     provider := provider self;
     http_trace := http_trace self |}.

Definition set_provider (a : string) (self : InternetMonitor)
  : InternetMonitor :=
  {| logger := logger self;
     last_down_time := last_down_time self;
     traffic_stats := traffic_stats self;
     external_ip := external_ip self;
     provider := a;
     http_trace := http_trace self |}.

Definition issue_get (url : string) (self : InternetMonitor)
  : InternetMonitor :=
  {| logger := logger self;
     last_down_time := last_down_time self;
     traffic_stats := traffic_stats self;
     external_ip := external_ip self;
     provider := provider self;
     http_trace := http_trace self ++ [url] |}.

(** ** Methods that may raise: state and exception passing *)

Inductive outcome (A : Type) : Type :=
| Return (a : A)
| Raise (e : exn).
Arguments Return {A} a.
Arguments Raise {A} e.

Definition M (A : Type) : Type := InternetMonitor -> outcome A * InternetMonitor.

Definition ret {A} (a : A) : M A := fun self => (Return a, self).

Definition bind {A B} (m : M A) (k : A -> M B) : M B :=
  fun self =>
    match m self with
    | (Return a, self') => k a self'
    | (Raise e, self') => (Raise e, self')
    end.

(** A method that never raises. *)
Definition total {A} (f : InternetMonitor -> A * InternetMonitor) : M A :=
  fun self => let (a, self') := f self in (Return a, self').

Definition gets {A} (f : InternetMonitor -> A) : M A :=
  fun self => (Return (f self), self).

Declare Scope monitor_scope.
Delimit Scope monitor_scope with monitor.
Notation "x <- m ;; k" := (bind m (fun x => k))
  (at level 100, m at next level, right associativity) : monitor_scope.

(** ** [check_internet_availability] *)

Record Availability := {
  available : bool;
  status_code : Z;
  ping : option PyFloat.float;
  test_url : option string
}.

Definition test_urls : list string :=
  [ "https://www.google.com";
    "https://www.cloudflare.com";
    "https://1.1.1.1" ].

(** The [for url in test_urls] loop: [Some r] when the loop returns [r]
    from inside, [None] when it runs off the end of the list. *)
Fixpoint probe (w : World) (urls : list string) (self : InternetMonitor)
  : option Availability * InternetMonitor :=
  match urls with
  | [] => (None, self)
  | url :: rest =>
      let self := issue_get url self in
      match requests_get w url with
      | Response code start finish =>
          let ping_ms := PyFloat.fmul_int (PyFloat.fsub finish start) 1000 in
          let self :=
            if code >=? 400
            then log WARNING (HTTP_Error code url) self
            else self in
          (Some {| available := (200 <=? code) && (code <? 400);
                   status_code := code;
                   ping := Some (PyFloat.round2 ping_ms);
                   test_url := Some url |}, self)
      | ConnectionError => probe w rest self
      | Timeout => probe w rest self
      | RequestException e =>
          probe w rest (log ERROR (Request_exception e) self)
      end
  end.

Definition all_checks_failed : Availability :=
  {| available := false; status_code := 0;
     ping := None; test_url := None |}.

Definition check_internet_availability (w : World) (self : InternetMonitor)
  : Availability * InternetMonitor :=
  match probe w test_urls self with
  | (Some r, self) => (r, self)
  | (None, self) =>
      let self :=
        match last_down_time self with
        | None =>
            log CRITICAL INTERNET_DOWN_Initial_detection
              (set_last_down_time (Some (now_on_failure w)) self)
        | Some _ => self
        end in
      (all_checks_failed, self)
  end.

(** ** [measure_speed] and the thread that runs it *)

Record Speed := {
  download : option PyFloat.float;
  upload : option PyFloat.float
}.

Definition no_speed : Speed := {| download := None; upload := None |}.

Definition measure_speed (w : World) (self : InternetMonitor)
  : Speed * InternetMonitor :=
  match speedtest_best_server w with
  | Err e => (no_speed, log ERROR (Speedtest_failed e) self)
  | Ok _ =>
      match speedtest_download w with
      | Err e => (no_speed, log ERROR (Speedtest_failed e) self)
      | Ok d =>
          let result :=
            {| download := Some (PyFloat.fdiv_int d 1000000);
               upload := None |} in
          match speedtest_upload w with
          | Err e => (result, log ERROR (Speedtest_failed e) self)
          | Ok u =>
              ({| download := download result;
                  upload := Some (PyFloat.fdiv_int u 1000000) |}, self)
          end
      end
  end.

(** The dict [speed_result], which the snapshot holds by reference and the
    thread updates in place: its content when [get_all_stats] returns, and
    the content a thread still running then will give it afterwards. *)
Record SpeedResult := {
  at_return : Speed;
  pending : option Speed
}.

(** [speed_result] and the thread around [measure_speed].  No thread is
    started after an unavailable check.  A thread that ends within the join
    has run [measure_speed] to its end when the collectors start.  A thread
    that is still running when the join times out updates the same dict
    later; what it appends to the log by then is written from that thread,
    not by the call. *)
Definition speed_thread (w : World) (availability : Availability)
    (self : InternetMonitor) : SpeedResult * InternetMonitor :=
  if available availability then
    match speed_thread_end w with
    | BeforeJoin =>
        let (result, self) := measure_speed w self in
        ({| at_return := result; pending := None |}, self)
    | BeforeReturn =>
        ({| at_return := fst (measure_speed w self); pending := None |}, self)
    | AfterReturn =>
        ({| at_return := no_speed;
            pending := Some (fst (measure_speed w self)) |}, self)
    end
  else ({| at_return := no_speed; pending := None |}, self).

(** ** [get_network_info] *)

Record NetworkInfo := {
  hostname : string;
  local_ip : string;
  mac_address : string;
  interface_name : string;
  info_external_ip : string;
  info_provider : string
}.

Definition set_interface (name : string) (info : NetworkInfo) : NetworkInfo :=
  {| hostname := hostname info; local_ip := local_ip info;
     mac_address := mac_address info; interface_name := name;
     info_external_ip := info_external_ip info;
     info_provider := info_provider info |}.

Definition set_local_ip (a : string) (info : NetworkInfo) : NetworkInfo :=
  {| hostname := hostname info; local_ip := a;
     mac_address := mac_address info; interface_name := interface_name info;
     info_external_ip := info_external_ip info;
     info_provider := info_provider info |}.

Definition set_mac_address (a : string) (info : NetworkInfo) : NetworkInfo :=
  {| hostname := hostname info; local_ip := local_ip info;
     mac_address := a; interface_name := interface_name info;
     info_external_ip := info_external_ip info;
     info_provider := info_provider info |}.

Definition IndexError : exn := "list index out of range".

(** The [for interface in netifaces.interfaces()] loop: the [info] built so
    far, and the exception that ended the loop, if one did. *)
Fixpoint scan_interfaces (w : World) (interfaces : list string)
    (info : NetworkInfo) : NetworkInfo * option exn :=
  match interfaces with
  | [] => (info, None)
  | interface :: rest =>
      match netifaces_ifaddresses w interface with
      | Err e => (info, Some e)
      | Ok addrs =>
          match AF_INET addrs with
          | Some inet =>
              if negb (String.eqb interface "lo") then
                let info := set_interface interface info in
                match inet with
                | [] => (info, Some IndexError)
                | a :: _ =>
                    let info := set_local_ip a info in
                    match AF_LINK addrs with
                    | Some [] => (info, Some IndexError)
                    | Some (m :: _) => (set_mac_address m info, None)
                    | None => (info, None)
                    end
                end
              else scan_interfaces w rest info
          | None => scan_interfaces w rest info
          end
      end
  end.

Definition get_network_info (w : World) (self : InternetMonitor)
  : NetworkInfo * InternetMonitor :=
  let info :=
    {| hostname := gethostname w;
       local_ip := "N/A"; mac_address := "N/A"; interface_name := "N/A";
       info_external_ip := external_ip self;
       info_provider := provider self |} in
  match netifaces_interfaces w with
  | Err e => (info, log ERROR (Network_info_error e) self)
  | Ok interfaces =>
      match scan_interfaces w interfaces info with
      | (info, Some e) => (info, log ERROR (Network_info_error e) self)
      | (info, None) => (info, self)
      end
  end.

(** ** [get_traffic_usage] *)

Record Traffic := {
  sent_total_mb : PyFloat.float;
  recv_total_mb : PyFloat.float;
  sent_rate_kbps : PyFloat.float;
  recv_rate_kbps : PyFloat.float
}.

(** [round(n / 1_048_576, 2)] *)
Definition total_mb (n : Z) : PyFloat.float :=
  PyFloat.round2 (PyFloat.int_truediv n 1048576).

(** [round(diff * 8 / 1024 / 10, 2)] *)
Definition rate_kbps (diff : Z) : PyFloat.float :=
  PyFloat.round2 (PyFloat.fdiv_int (PyFloat.int_truediv (diff * 8) 1024) 10).

(** The method has no handler: what [psutil.net_io_counters()] raises
    leaves it, before the baseline is touched. *)
Definition get_traffic_usage (w : World) : M Traffic :=
  fun self =>
    match net_io_counters w with
    | Err e => (Raise e, self)
    | Ok (current_sent, current_recv) =>
        let sent_diff := current_sent - sent (traffic_stats self) in
        let recv_diff := current_recv - recv (traffic_stats self) in
        let self :=
          set_traffic_stats {| sent := current_sent; recv := current_recv |}
            self in
        (Return {| sent_total_mb := total_mb current_sent;
                   recv_total_mb := total_mb current_recv;
                   sent_rate_kbps := rate_kbps sent_diff;
                   recv_rate_kbps := rate_kbps recv_diff |}, self)
    end.

(** ** [get_network_processes] *)

Record ProcessEntry := {
  pid : Z;
  name : string;
  local_address : string;
  remote_address : string;
  status : string
}.

(** [f"{a.ip}:{a.port}"] *)
Definition format_addr (a : addr) : string :=
  (ip a ++ ":" ++ NilZero.string_of_int (Z.to_int (port a)))%string.

Definition process_entry (conn : sconn) (p : Z) (n : string) : ProcessEntry :=
  {| pid := p;
     name := n;
     local_address := format_addr (conn_laddr conn);
     remote_address :=
       match conn_raddr conn with
       | Some r => format_addr r
       | None => "N/A"
       end;
     status := conn_status conn |}.

(** [conn.status == psutil.CONN_ESTABLISHED and conn.pid]: the PID when the
    connection is established and its [pid] is neither [None] nor [0]. *)
Definition established_pid (conn : sconn) : option Z :=
  if String.eqb (conn_status conn) CONN_ESTABLISHED then
    match conn_pid conn with
    | Some p => if p =? 0 then None else Some p
    | None => None
    end
  else None.

(** The [for conn in ...] loop, appending to [processes]: the list when
    the loop ends, and the exception that ended it, if one did. *)
Fixpoint scan_connections (w : World) (conns : list sconn)
    (processes : list ProcessEntry) : list ProcessEntry * option exn :=
  match conns with
  | [] => (processes, None)
  | conn :: rest =>
      match established_pid conn with
      | Some p =>
          match process_lookup w p with
          | ProcessName n =>
              scan_connections w rest (processes ++ [process_entry conn p n])
          | NoSuchProcess => scan_connections w rest processes
          | AccessDenied => scan_connections w rest processes
          | OtherError e => (processes, Some e)
          end
      | None => scan_connections w rest processes
      end
  end.

Definition get_network_processes (w : World) (self : InternetMonitor)
  : list ProcessEntry * InternetMonitor :=
  match net_connections w with
  | Err e => (firstn 20 [], log ERROR (Process_scan_error e) self)
  | Ok conns =>
      match scan_connections w conns [] with
      | (processes, Some e) =>
          (firstn 20 processes, log ERROR (Process_scan_error e) self)
      | (processes, None) => (firstn 20 processes, self)
      end
  end.

(** ** [get_all_stats] *)

(** The dict [stats].  [speed] is what its ['speed'] entry reads when
    [get_all_stats] returns; the entry is [speed_result] itself, so it
    reads [speed_pending] once a thread still running then has ended. *)
Record Snapshot := {
  timestamp : string;
  availability : Availability;
  speed : Speed;
  speed_pending : option Speed;
  network_info : NetworkInfo;
  traffic : Traffic;
  processes : list ProcessEntry;
  last_down : string
}.

(** [self.last_down_time.strftime(...) if self.last_down_time else 'Never'] *)
Definition last_down_text (self : InternetMonitor) : string :=
  match last_down_time self with
  | Some t => strftime t
  | None => "Never"
  end.

(** The closing [if availability['available'] and self.last_down_time]. *)
Definition restore (w : World) (a : Availability) (self : InternetMonitor)
  : unit * InternetMonitor :=
  match available a, last_down_time self with
  | true, Some onset =>
      (tt, set_last_down_time None
             (log INFO (INTERNET_RESTORED_after (now_on_restore w) onset) self))
  | _, _ => (tt, self)
  end.

Local Open Scope monitor_scope.

Definition get_all_stats (w : World) : M Snapshot :=
  a <- total (check_internet_availability w) ;;
  speed_result <- total (speed_thread w a) ;;
  info <- total (get_network_info w) ;;
  usage <- get_traffic_usage w ;;
  procs <- total (get_network_processes w) ;;
  down <- gets last_down_text ;;
  let stats :=
    {| timestamp := strftime (now_on_assembly w);
       availability := a;
       speed := at_return speed_result;
       speed_pending := pending speed_result;
       network_info := info;
       traffic := usage;
       processes := procs;
       last_down := down |} in
  _ <- total (restore w a) ;;
  ret stats.

(** ** Construction of the monitor *)

Record ProviderResponse := {
  provider_status_code : Z;
  (** [.json()], then the ['isp'] and ['org'] entries of the object *)
  provider_json : result (option string * option string)
}.

Record StartupWorld := {
  startup_counters : result (Z * Z);
  (** the ipify request and its [.json().get('ip')] *)
  ipify : result (option string);
  ip_api : string -> result ProviderResponse
}.

Definition _init_traffic_baseline (sw : StartupWorld) : M unit :=
  fun self =>
    match startup_counters sw with
    | Err e => (Raise e, self)
    | Ok (bytes_sent, bytes_recv) =>
        (Return tt,
         set_traffic_stats {| sent := bytes_sent; recv := bytes_recv |} self)
    end.

Definition _update_external_info (sw : StartupWorld) (self : InternetMonitor)
  : unit * InternetMonitor :=
  match ipify sw with
  | Err e => (tt, log ERROR (External_info_update_failed e) self)
  | Ok found =>
      let self :=
        set_external_ip
          match found with Some a => a | None => "N/A" end self in
      if negb (String.eqb (external_ip self) "N/A") then
        match ip_api sw (external_ip self) with
        | Err e => (tt, log ERROR (External_info_update_failed e) self)
        | Ok provider_response =>
            if provider_status_code provider_response =? 200 then
              match provider_json provider_response with
              | Err e => (tt, log ERROR (External_info_update_failed e) self)
              | Ok (Some isp, _) => (tt, set_provider isp self)
              | Ok (None, Some org) => (tt, set_provider org self)
              | Ok (None, None) => (tt, set_provider "N/A" self)
              end
            else (tt, self)
        end
      else (tt, self)
  end.

(** [InternetMonitor()] *)
Definition __init__ (sw : StartupWorld) : outcome unit * InternetMonitor :=
  let self :=
    {| logger := [];
       last_down_time := None;
       traffic_stats := {| sent := 0; recv := 0 |};
       external_ip := "N/A";
       provider := "N/A";
       http_trace := [] |} in
  (_ <- _init_traffic_baseline sw ;;
   total (_update_external_info sw)) self.

(** ** [app.py]: the cache and its two users *)

(** The module-level names of [app.py].  [cached_stats] is [None] while it
    is still the empty dict it starts as. *)
Record App := {
  monitor : InternetMonitor;
  cached_stats : option Snapshot;
  cache_time : PyFloat.float
}.

Definition CACHE_TTL : Z := 5.

Definition app_start (m : InternetMonitor) : App :=
  {| monitor := m; cached_stats := None; cache_time := PyFloat.of_int 0 |}.

(** One turn of the [while True] loop of [update_cache], under the lock;
    [now] is the [time.time()] read after the refresh. *)
Definition update_cache (w : World) (now : PyFloat.float) (app : App)
  : outcome unit * App :=
  match get_all_stats w (monitor app) with
  | (Return stats, m) =>
      (Return tt,
       {| monitor := m; cached_stats := Some stats; cache_time := now |})
  | (Raise e, m) =>
      (Raise e,
       {| monitor := m; cached_stats := cached_stats app;
          cache_time := cache_time app |})
  end.

Definition UnboundLocalError : exn :=
  "cannot access local variable 'cached_stats' where it is not associated with a value".

(** The body that [jsonify] serialises. *)
Inductive HttpBody := jsonify (stats : Snapshot).

(** The handler of [GET /api/stats], under the lock; [now] is its
    [time.time()].  The function assigns [cached_stats] and declares no
    [global], so the name is local to it throughout: the assignment leaves
    the module's [cached_stats] alone, and on the branch that skips the
    assignment the [return] reads a local that was never bound. *)
Definition get_stats (w : World) (now : PyFloat.float) (app : App)
  : outcome HttpBody * App :=
  if PyFloat.fgt (PyFloat.fsub now (cache_time app)) (PyFloat.of_int CACHE_TTL)
  then
    match get_all_stats w (monitor app) with
    | (Return local_cached_stats, m) =>
        (Return (jsonify local_cached_stats),
         {| monitor := m; cached_stats := cached_stats app;
            cache_time := cache_time app |})
    | (Raise e, m) =>
        (Raise e,
         {| monitor := m; cached_stats := cached_stats app;
            cache_time := cache_time app |})
    end
  else (Raise UnboundLocalError, app).

(** * Vocabulary of the properties *)

(** ** The probe loop *)

Definition failed (o : HttpOutcome) : bool :=
  match o with
  | Response _ _ _ => false
  | _ => true
  end.

(** Every URL of the list raised. *)
Definition all_failed (w : World) : bool :=
  forallb (fun url => failed (requests_get w url)) test_urls.

(** What the [except RequestException] clause logs over a run of URLs. *)
Definition request_errors (w : World) (urls : list string) : list LogRecord :=
  flat_map
    (fun url =>
       match requests_get w url with
       | RequestException e => [(ERROR, Request_exception e)]
       | _ => []
       end) urls.

(** The monitor after the loop went through [urls] without an answer. *)
Definition skipped (w : World) (urls : list string) (self : InternetMonitor)
  : InternetMonitor :=
  {| logger := logger self ++ request_errors w urls;
     last_down_time := last_down_time self;
     traffic_stats := traffic_stats self;
     external_ip := external_ip self;
     provider := provider self;
     http_trace := http_trace self ++ urls |}.

(** The fields [__init__] starts from: UP, no baseline yet, nothing logged. *)
Definition blank : InternetMonitor :=
  {| logger := [];
     last_down_time := None;
     traffic_stats := {| sent := 0; recv := 0 |};
     external_ip := "N/A";
     provider := "N/A";
     http_trace := [] |}.

(** The result of a check depends on the world alone. *)
Definition check_result (w : World) : Availability :=
  fst (check_internet_availability w blank).

(** The monitor is DOWN when an onset is recorded. *)
Definition is_down (self : InternetMonitor) : bool :=
  match last_down_time self with
  | Some _ => true
  | None => false
  end.

(** A [CRITICAL] record is in the log. *)
Definition has_critical (l : list LogRecord) : bool :=
  existsb (fun r => match fst r with CRITICAL => true | _ => false end) l.

(** ** Cycles *)

(** The monitor after one [get_all_stats] per world, oldest first. *)
Fixpoint run (ws : list World) (self : InternetMonitor) : InternetMonitor :=
  match ws with
  | [] => self
  | w :: ws' => run ws' (snd (get_all_stats w self))
  end.

(** The cycle returns a snapshot. *)
Definition completes (w : World) : Prop :=
  forall self, exists stats self', get_all_stats w self = (Return stats, self').

Definition unavailable (w : World) : Prop :=
  available (check_result w) = false.

(** Some check had every URL fail, and no check after it was available. *)
Definition outage_pending (ws : list World) : Prop :=
  exists pre w post,
    ws = (pre ++ w :: post)%list /\ all_failed w = true /\ Forall unavailable post.

(** ** The connection census, by what it lists *)

(** The connection qualifies and [entry] is its entry: it is established,
    its PID is present and not zero, and the name of the process with that
    PID resolves. *)
Definition resolves (w : World) (conn : sconn) (entry : ProcessEntry) : Prop :=
  conn_status conn = "ESTABLISHED"
  /\ exists p n,
       conn_pid conn = Some p /\ p <> 0
       /\ process_lookup w p = ProcessName n
       /\ entry =
          {| pid := p;
             name := n;
             local_address :=
               (ip (conn_laddr conn) ++ ":"
                ++ NilZero.string_of_int (Z.to_int (port (conn_laddr conn))))
               %string;
             remote_address :=
               match conn_raddr conn with
               | Some r =>
                   (ip r ++ ":" ++ NilZero.string_of_int (Z.to_int (port r)))
                   %string
               | None => "N/A"
               end;
             status := "ESTABLISHED" |}.

(** Looking up the process of the connection raises [e], an exception the
    loop does not handle. *)
Definition interrupts (w : World) (conn : sconn) (e : exn) : Prop :=
  conn_status conn = "ESTABLISHED"
  /\ exists p, conn_pid conn = Some p /\ p <> 0
              /\ process_lookup w p = OtherError e.

(** The entries of the qualifying connections of a list, in its order. *)
Inductive qualifying_entries (w : World)
  : list sconn -> list ProcessEntry -> Prop :=
| qualifying_nil : qualifying_entries w [] []
| qualifying_keep conn rest entry entries :
    resolves w conn entry ->
    qualifying_entries w rest entries ->
    qualifying_entries w (conn :: rest) (entry :: entries)
| qualifying_skip conn rest entries :
    (forall entry, ~ resolves w conn entry) ->
    qualifying_entries w rest entries ->
    qualifying_entries w (conn :: rest) entries.

(** ** Sample worlds *)

Definition noon : datetime :=
  {| year := 2024; month := 3; day := 9;
     hour := 12; minute := 0; second := 5; microsecond := 0 |}.

Definition later : datetime :=
  {| year := 2024; month := 3; day := 9;
     hour := 12; minute := 0; second := 15; microsecond := 0 |}.

(** A host where every capability answers, given the HTTP behaviour, the
    byte counters and the connection table. *)
Definition host (http : string -> HttpOutcome) (counters : result (Z * Z))
    (conns : result (list sconn)) : World :=
  {| requests_get := http;
     now_on_failure := noon;
     speedtest_best_server := Ok tt;
     speedtest_download := Ok (PyFloat.of_int 94000000);
     speedtest_upload := Ok (PyFloat.of_int 11000000);
     speed_thread_end := BeforeJoin;
     now_on_assembly := later;
     gethostname := "box";
     netifaces_interfaces := Ok ["lo"; "eth0"];
     netifaces_ifaddresses :=
       fun i =>
         if String.eqb i "lo"
         then Ok {| AF_INET := Some ["127.0.0.1"];
                    AF_LINK := Some ["00:00:00:00:00:00"] |}
         else Ok {| AF_INET := Some ["192.168.1.7"];
                    AF_LINK := Some ["aa:bb:cc:dd:ee:ff"] |};
     net_io_counters := counters;
     net_connections := conns;
     process_lookup := fun _ => ProcessName "curl";
     now_on_restore := later |}.

(** [time.time()] readings 40 ms apart. *)
Definition t_start : PyFloat.float := PyFloat.of_int 1710000000.
Definition t_finish : PyFloat.float :=
  PyFloat.int_truediv 171000000004 100.

Definition answers (code : Z) : string -> HttpOutcome :=
  fun _ => Response code t_start t_finish.

Definition unreachable : string -> HttpOutcome :=
  fun url =>
    if String.eqb url "https://www.cloudflare.com" then Timeout
    else ConnectionError.

(** The first endpoint is unreachable, the second answers with [code]. *)
Definition second_answers (code : Z) : string -> HttpOutcome :=
  fun url =>
    if String.eqb url "https://www.google.com" then ConnectionError
    else Response code t_start t_finish.

Definition established (n : Z) : sconn :=
  {| conn_status := CONN_ESTABLISHED;
     conn_pid := Some (1000 + n);
     conn_laddr := {| ip := "192.168.1.7"; port := 40000 + n |};
     conn_raddr := Some {| ip := "93.184.216.34"; port := 443 |} |}.

(** [n] established connections, numbered downwards. *)
Fixpoint synthetic (n : nat) : list sconn :=
  match n with
  | O => []
  | S k => established (Z.of_nat n) :: synthetic k
  end.

(** Five established connections; looking up the process of the third
    raises an exception the loop does not handle. *)
Definition w_lookup_breaks : World :=
  {| requests_get := answers 200;
     now_on_failure := noon;
     speedtest_best_server := Ok tt;
     speedtest_download := Ok (PyFloat.of_int 94000000);
     speedtest_upload := Ok (PyFloat.of_int 11000000);
     speed_thread_end := BeforeJoin;
     now_on_assembly := later;
     gethostname := "box";
     netifaces_interfaces := Ok ["lo"; "eth0"];
     netifaces_ifaddresses :=
       fun _ => Ok {| AF_INET := Some ["192.168.1.7"]; AF_LINK := None |};
     net_io_counters := Ok (5000, 7000);
     net_connections :=
       Ok [established 1; established 2; established 3; established 4;
           established 5];
     process_lookup :=
       fun p =>
         if p =? 1003 then OtherError "[Errno 24] Too many open files"
         else ProcessName "curl";
     now_on_restore := later |}.

Definition w_down : World := host unreachable (Ok (5000, 7000)) (Ok []).
Definition w_up : World := host (answers 200) (Ok (5000, 7000)) (Ok []).
Definition w_http_500 : World := host (answers 500) (Ok (5000, 7000)) (Ok []).
Definition w_no_counters : World :=
  host (answers 200) (Err "'NoneType' object has no attribute 'bytes_sent'")
    (Ok []).

(** Every collector with a handler fails; the byte counters can be read. *)
Definition w_degraded : World :=
  {| requests_get := fun _ => RequestException "Invalid URL";
     now_on_failure := noon;
     speedtest_best_server := Err "Unable to connect to servers";
     speedtest_download := Err "no server";
     speedtest_upload := Err "no server";
     speed_thread_end := BeforeJoin;
     now_on_assembly := later;
     gethostname := "box";
     netifaces_interfaces := Err "interfaces unavailable";
     netifaces_ifaddresses := fun _ => Err "You must specify a valid interface name.";
     net_io_counters := Ok (5000, 7000);
     net_connections := Err "Permission denied";
     process_lookup := fun _ => AccessDenied;
     now_on_restore := later |}.

(** Decimal literals as Python reads them: the nearest binary64. *)
Definition literal (num den : Z) : PyFloat.float := PyFloat.int_truediv num den.

Definition was_down : InternetMonitor := set_last_down_time (Some noon) blank.

(** ** [app.py]: the tail of the event log *)

(** What [open('internet_events.log', 'r', encoding='utf-8')] followed by
    [f.readlines()] gives: the lines of the file, or the exception raised. *)
Inductive LogFile :=
| FileLines (lines : list string)
| FileNotFoundError
| OtherReadError (e : exn).

(** [lines[-n:]] *)
Definition last_lines (n : nat) (lines : list string) : list string :=
  skipn (List.length lines - n) lines.

(** The handler of [GET /api/logs]; the value is the list under ['logs'].
    Only [FileNotFoundError] is handled. *)
Definition get_logs (file : LogFile) : outcome (list string) :=
  match file with
  | FileLines lines => Return (last_lines 50 lines)
  | FileNotFoundError => Return []
  | OtherReadError e => Raise e
  end.

(** ** More vocabulary *)

(** [psutil.net_io_counters()] answers. *)
Definition counters_readable (w : World) : bool :=
  match net_io_counters w with
  | Ok _ => true
  | Err _ => false
  end.

Definition level_eqb (a b : level) : bool :=
  match a, b with
  | INFO, INFO | WARNING, WARNING | ERROR, ERROR | CRITICAL, CRITICAL => true
  | _, _ => false
  end.

(** How many records of a level the log holds. *)
Definition count_level (lv : level) (l : list LogRecord) : nat :=
  List.length (filter (fun r => level_eqb lv (fst r)) l).

(** Warnings and errors: the records that go with no state transition. *)
Definition minor (r : LogRecord) : bool :=
  match fst r with
  | WARNING | ERROR => true
  | INFO | CRITICAL => false
  end.

(** [self'] is [self] with warnings and errors appended to the log. *)
Definition logs_minor (self self' : InternetMonitor) : Prop :=
  exists extra,
    logger self' = (logger self ++ extra)%list
    /\ forallb minor extra = true.

(** The fields a step leaves alone, and the way it extends the others. *)
Record step (self self' : InternetMonitor) : Prop := {
  step_log : logs_minor self self';
  step_down : last_down_time self' = last_down_time self;
  step_ip : external_ip self' = external_ip self;
  step_provider : provider self' = provider self
}.

(** The monitor as the collectors leave it, before the closing [if]. *)
Definition collected (w : World) (self : InternetMonitor) : InternetMonitor :=
  let (a, s1) := check_internet_availability w self in
  let s2 := snd (speed_thread w a s1) in
  let s3 := snd (get_network_info w s2) in
  match net_io_counters w with
  | Err _ => s3
  | Ok (current_sent, current_recv) =>
      snd (get_network_processes w
             (set_traffic_stats
                {| sent := current_sent; recv := current_recv |} s3))
  end.

(** An interface the loop of [get_network_info] passes over: its addresses
    can be read, and it is the loopback or has no IPv4 address. *)
Definition passed_over (w : World) (interface : string) : Prop :=
  exists addrs,
    netifaces_ifaddresses w interface = Ok addrs
    /\ (AF_INET addrs = None \/ interface = "lo").

(** The effect of a record on the question whether an outage is open
    according to the log: a critical record opens one, a restoration
    record closes it, warnings and errors leave it. *)
Definition transition (acc : bool) (r : LogRecord) : bool :=
  match fst r with
  | CRITICAL => true
  | INFO => false
  | WARNING | ERROR => acc
  end.

Definition outage_logged (l : list LogRecord) : bool :=
  fold_left transition l false.

(** The log holds a critical record after which only warnings and errors
    were logged: an outage was logged, and no recovery since. *)
Definition open_outage (l : list LogRecord) : Prop :=
  exists before m after,
    l = (before ++ (CRITICAL, m) :: after)%list
    /\ forallb minor after = true.

(** The number of a boolean. *)
Definition b2n (b : bool) : nat := if b then 1%nat else 0%nat.

(** The log accounts for the state: one critical record per outage
    detected, one restoration record per outage that ended. *)
Definition log_accounts (self : InternetMonitor) : Prop :=
  count_level CRITICAL (logger self) =
  (count_level INFO (logger self) + b2n (is_down self))%nat.

(** ** More sample worlds *)

Definition sw_offline : StartupWorld :=
  {| startup_counters := Ok (5000, 7000);
     ipify := Err "Max retries exceeded";
     ip_api := fun _ => Err "Max retries exceeded" |}.

(** The address is found, the provider lookup fails. *)
Definition sw_no_provider : StartupWorld :=
  {| startup_counters := Ok (5000, 7000);
     ipify := Ok (Some "203.0.113.9");
     ip_api := fun _ => Err "Read timed out" |}.

Definition sw_org_only : StartupWorld :=
  {| startup_counters := Ok (5000, 7000);
     ipify := Ok (Some "203.0.113.9");
     ip_api := fun _ =>
       Ok {| provider_status_code := 200;
             provider_json := Ok (None, Some "Example Net") |} |}.

(** The download is measured, the upload fails. *)
Definition w_upload_fails : World :=
  {| requests_get := answers 200;
     now_on_failure := noon;
     speedtest_best_server := Ok tt;
     speedtest_download := Ok (PyFloat.of_int 94000000);
     speedtest_upload := Err "HTTP Error 403";
     speed_thread_end := BeforeJoin;
     now_on_assembly := later;
     gethostname := "box";
     netifaces_interfaces := Ok ["lo"; "docker0"; "eth0"];
     netifaces_ifaddresses :=
       fun i =>
         if String.eqb i "lo"
         then Ok {| AF_INET := Some ["127.0.0.1"];
                    AF_LINK := Some ["00:00:00:00:00:00"] |}
         else if String.eqb i "docker0"
         then Ok {| AF_INET := None; AF_LINK := Some ["02:42:ac:11:00:02"] |}
         else Ok {| AF_INET := Some ["192.168.1.7"];
                    AF_LINK := Some ["aa:bb:cc:dd:ee:ff"] |};
     net_io_counters := Ok (107400, 7000);
     net_connections :=
       Ok [ established 1;
            {| conn_status := "LISTEN"; conn_pid := Some 77;
               conn_laddr := {| ip := "0.0.0.0"; port := 22 |};
               conn_raddr := None |};
            {| conn_status := CONN_ESTABLISHED; conn_pid := None;
               conn_laddr := {| ip := "192.168.1.7"; port := 40002 |};
               conn_raddr := None |};
            established 4 ];
     process_lookup :=
       fun p => if p =? 1004 then AccessDenied else ProcessName "curl";
     now_on_restore := later |}.

(** The speed thread ends after the join has timed out and before
    [get_all_stats] returns. *)
Definition w_thread_late : World :=
  {| requests_get := answers 200;
     now_on_failure := noon;
     speedtest_best_server := Ok tt;
     speedtest_download := Ok (PyFloat.of_int 94000000);
     speedtest_upload := Ok (PyFloat.of_int 11000000);
     speed_thread_end := BeforeReturn;
     now_on_assembly := later;
     gethostname := "box";
     netifaces_interfaces := Ok ["lo"; "eth0"];
     netifaces_ifaddresses :=
       fun _ => Ok {| AF_INET := Some ["192.168.1.7"]; AF_LINK := None |};
     net_io_counters := Ok (5000, 7000);
     net_connections := Ok [];
     process_lookup := fun _ => NoSuchProcess;
     now_on_restore := later |}.

(** Only the loopback has an IPv4 address. *)
Definition w_loopback_only : World :=
  {| requests_get := unreachable;
     now_on_failure := noon;
     speedtest_best_server := Ok tt;
     speedtest_download := Ok (PyFloat.of_int 94000000);
     speedtest_upload := Ok (PyFloat.of_int 11000000);
     speed_thread_end := BeforeJoin;
     now_on_assembly := later;
     gethostname := "box";
     netifaces_interfaces := Ok ["lo"; "docker0"];
     netifaces_ifaddresses :=
       fun i =>
         if String.eqb i "lo"
         then Ok {| AF_INET := Some ["127.0.0.1"];
                    AF_LINK := Some ["00:00:00:00:00:00"] |}
         else Ok {| AF_INET := None; AF_LINK := Some ["02:42:ac:11:00:02"] |};
     net_io_counters := Ok (5000, 7000);
     net_connections := Ok [];
     process_lookup := fun _ => NoSuchProcess;
     now_on_restore := later |}.

(** A check that fails a minute after [noon]. *)
Definition w_still_down : World :=
  {| requests_get := unreachable;
     now_on_failure :=
       {| year := 2024; month := 3; day := 9;
          hour := 12; minute := 1; second := 5; microsecond := 0 |};
     speedtest_best_server := Ok tt;
     speedtest_download := Ok (PyFloat.of_int 94000000);
     speedtest_upload := Ok (PyFloat.of_int 11000000);
     speed_thread_end := BeforeJoin;
     now_on_assembly := later;
     gethostname := "box";
     netifaces_interfaces := Ok ["lo"; "eth0"];
     netifaces_ifaddresses := fun _ => Ok {| AF_INET := None; AF_LINK := None |};
     net_io_counters := Err "counters unavailable";
     net_connections := Ok [];
     process_lookup := fun _ => NoSuchProcess;
     now_on_restore := later |}.

(** * Properties *)

(** ** Rounding to two decimals, on the values Python documents *)

(** [round(0.025, 2) == 0.03]: the binary64 nearest to 0.025 lies above
    the tie. *)
Example round2_0_025 : PyFloat.round2 (literal 25 1000) = literal 3 100.
Proof. vm_compute. reflexivity. Qed.

(** [round(2.675, 2) == 2.67]: the binary64 nearest to 2.675 lies below
    the tie. *)
Example round2_2_675 : PyFloat.round2 (literal 2675 1000) = literal 267 100.
Proof. vm_compute. reflexivity. Qed.

(** [round(0.125, 2) == 0.12]: an exact tie goes to the even neighbour. *)
Example round2_0_125 : PyFloat.round2 (literal 125 1000) = literal 12 100.
Proof. vm_compute. reflexivity. Qed.

(** [round(-0.001, 2) == -0.0] *)
Example round2_negative_zero :
  PyFloat.round2 (literal (-1) 1000) = S754_zero true.
Proof. vm_compute. reflexivity. Qed.

(** Dividing an [int] by a power of two is exact as long as the [int] has
    a binary64: [x / 1024 == float(x) / 1024.0]. *)
Example int_truediv_819200 :
  PyFloat.int_truediv 819200 1024 = PyFloat.of_int 800
  /\ PyFloat.fdiv_int (PyFloat.of_int 800) 10 = PyFloat.of_int 80
  /\ PyFloat.round2 (PyFloat.of_int 80) = PyFloat.of_int 80.
Proof. vm_compute. repeat split. Qed.

(** ** The probe loop *)

Lemma skipped_cons w url urls self :
  failed (requests_get w url) = true ->
  skipped w (url :: urls) self =
  skipped w urls
    match requests_get w url with
    | RequestException e => log ERROR (Request_exception e) (issue_get url self)
    | _ => issue_get url self
    end.
Proof.
  intros F. unfold skipped, request_errors. cbn [flat_map].
  destruct (requests_get w url); try discriminate F; cbn;
    rewrite <- ?app_assoc; reflexivity.
Qed.

Lemma probe_skips w pre rest :
  forallb (fun url => failed (requests_get w url)) pre = true ->
  forall self,
    probe w (pre ++ rest)%list self = probe w rest (skipped w pre self).
Proof.
  induction pre as [|url pre IH]; intros F self.
  - cbn. destruct self; unfold skipped; cbn. now rewrite !app_nil_r.
  - cbn [forallb] in F. apply andb_prop in F as [Fu Fp].
    rewrite (skipped_cons _ _ _ _ Fu). cbn [app probe].
    destruct (requests_get w url); try discriminate Fu; now rewrite IH.
Qed.

Lemma probe_all_failed w urls self :
  forallb (fun url => failed (requests_get w url)) urls = true ->
  probe w urls self = (None, skipped w urls self).
Proof.
  intros F. rewrite <- (app_nil_r urls) at 1. now rewrite probe_skips.
Qed.

Lemma probe_answer w urls self :
  forallb (fun url => failed (requests_get w url)) urls = false ->
  exists r self', probe w urls self = (Some r, self')
    /\ last_down_time self' = last_down_time self
    /\ has_critical (logger self') = has_critical (logger self).
Proof.
  revert self. induction urls as [|url urls IH]; intros self F.
  - discriminate F.
  - cbn [forallb] in F. cbn [probe].
    destruct (requests_get w url) eqn:G; cbn [failed andb] in F.
    + eexists _, _. split; [reflexivity|].
      destruct (code >=? 400); cbn; [|tauto].
      split; [reflexivity|]. unfold has_critical.
      rewrite existsb_app. cbn. now rewrite !orb_false_r.
    + apply IH with (self := issue_get url self) in F. exact F.
    + apply IH with (self := issue_get url self) in F. exact F.
    + apply IH with (self := log ERROR (Request_exception e) (issue_get url self))
        in F.
      destruct F as (r & self' & E & L & C). exists r, self'.
      repeat split; trivial. rewrite C. cbn. unfold has_critical.
      rewrite existsb_app. cbn. now rewrite !orb_false_r.
Qed.

(** The availability found does not depend on the monitor. *)
Lemma probe_result_any_state w urls :
  forall self self', fst (probe w urls self) = fst (probe w urls self').
Proof.
  induction urls as [|url urls IH]; intros self self'; cbn [probe].
  - reflexivity.
  - destruct (requests_get w url); cbn; auto.
Qed.

Lemma check_result_any_state w self :
  fst (check_internet_availability w self) = check_result w.
Proof.
  unfold check_result, check_internet_availability.
  pose proof (probe_result_any_state w test_urls self blank) as E.
  destruct (probe w test_urls self) as [[r|] s];
    destruct (probe w test_urls blank) as [[r'|] s']; cbn in E |- *;
    congruence.
Qed.

(** ** [check_internet_availability] *)

Lemma failed_forallb w urls :
  (forall url, In url urls -> failed (requests_get w url) = true) ->
  forallb (fun url => failed (requests_get w url)) urls = true.
Proof. intros H. apply forallb_forall. exact H. Qed.

(** C6.  When each of the three URLs fails with a connection error or a
    timeout, the check returns exactly
    [{available: False, status_code: 0, ping: None, test_url: None}], after
    trying the three of them in order. *)
Theorem check_all_unreachable_result (w : World) (self : InternetMonitor) :
  (forall url, In url test_urls ->
     requests_get w url = ConnectionError \/ requests_get w url = Timeout) ->
  fst (check_internet_availability w self) =
    {| available := false; status_code := 0; ping := None; test_url := None |}
  /\ http_trace (snd (check_internet_availability w self)) =
     (http_trace self ++ test_urls)%list.
Proof.
  intros H.
  assert (F : forallb (fun url => failed (requests_get w url)) test_urls = true).
  { apply failed_forallb. intros url I. destruct (H url I) as [E|E]; now rewrite E. }
  unfold check_internet_availability. rewrite (probe_all_failed _ _ _ F).
  split; [reflexivity|].
  cbn [snd]. destruct (last_down_time (skipped w test_urls self)); reflexivity.
Qed.

Lemma check_all_unreachable_result_witness :
  (forall url, In url test_urls ->
     requests_get w_down url = ConnectionError
     \/ requests_get w_down url = Timeout)
  /\ fst (check_internet_availability w_down blank) =
     {| available := false; status_code := 0; ping := None; test_url := None |}.
Proof.
  assert (H : forall url, In url test_urls ->
     requests_get w_down url = ConnectionError
     \/ requests_get w_down url = Timeout).
  { intros url I. cbn in I.
    destruct I as [<-|[<-|[<-|[]]]]; cbn; auto. }
  split; [exact H|]. exact (proj1 (check_all_unreachable_result w_down blank H)).
Defined.

(** C7.  The check returns on the first URL that answers, whatever the
    status: the URLs before it raised and were passed over, the URLs after
    it are not requested.  The result is available exactly for
    [200 <= status < 400], carries the status, the answering URL and the
    elapsed time in milliseconds rounded to two decimals; a status of 400 or
    more adds one warning to the log and nothing else. *)
Theorem check_returns_first_response
    (w : World) (self : InternetMonitor) (pre post : list string)
    (url : string) (code : Z) (start finish : PyFloat.float) :
  test_urls = (pre ++ url :: post)%list ->
  (forall u, In u pre -> failed (requests_get w u) = true) ->
  requests_get w url = Response code start finish ->
  let r := fst (check_internet_availability w self) in
  let self' := snd (check_internet_availability w self) in
  (available r = true <-> 200 <= code < 400)
  /\ status_code r = code
  /\ ping r =
     Some (PyFloat.round2 (PyFloat.fmul_int (PyFloat.fsub finish start) 1000))
  /\ test_url r = Some url
  /\ http_trace self' = (http_trace self ++ pre ++ [url])%list
  /\ logger self' =
     (logger self ++ request_errors w pre ++
        if 400 <=? code then [(WARNING, HTTP_Error code url)] else [])%list
  /\ last_down_time self' = last_down_time self.
Proof.
  intros Split Pre Answer.
  unfold check_internet_availability. rewrite Split.
  rewrite (probe_skips _ _ _ (failed_forallb _ _ Pre)).
  cbn [probe]. rewrite Answer. cbn zeta.
  replace (code >=? 400) with (400 <=? code) by (symmetry; apply Z.geb_leb).
  cbn [fst snd available status_code ping test_url].
  split.
  { rewrite andb_true_iff, Z.leb_le, Z.ltb_lt. reflexivity. }
  do 3 (split; [reflexivity|]).
  destruct (400 <=? code); cbn; rewrite <- ?app_assoc, ?app_nil_r;
    repeat split; reflexivity.
Qed.

Lemma check_returns_first_response_witness :
  let w := host (second_answers 404) (Ok (0, 0)) (Ok []) in
  let r := fst (check_internet_availability w blank) in
  let self' := snd (check_internet_availability w blank) in
  (forall u, In u ["https://www.google.com"] ->
     failed (requests_get w u) = true)
  /\ requests_get w "https://www.cloudflare.com" =
     Response 404 t_start t_finish
  /\ (available r = true <-> 200 <= 404 < 400)
  /\ status_code r = 404
  /\ test_url r = Some "https://www.cloudflare.com"
  /\ http_trace self' = ["https://www.google.com"; "https://www.cloudflare.com"]
  /\ logger self' = [(WARNING, HTTP_Error 404 "https://www.cloudflare.com")].
Proof.
  intros w r self'.
  assert (Pre : forall u, In u ["https://www.google.com"] ->
                  failed (requests_get w u) = true).
  { intros u I. cbn in I. destruct I as [<-|[]]. reflexivity. }
  assert (Answer : requests_get w "https://www.cloudflare.com" =
                   Response 404 t_start t_finish) by reflexivity.
  destruct (check_returns_first_response w blank
              ["https://www.google.com"] ["https://1.1.1.1"]
              "https://www.cloudflare.com" 404 t_start t_finish
              eq_refl Pre Answer) as (A & S & _ & U & T & L & _).
  exact (conj Pre (conj Answer (conj A (conj S (conj U (conj T L)))))).
Defined.

Lemma check_last_down_time w self :
  last_down_time (snd (check_internet_availability w self)) =
  if all_failed w then
    match last_down_time self with
    | None => Some (now_on_failure w)
    | Some onset => Some onset
    end
  else last_down_time self.
Proof.
  unfold check_internet_availability, all_failed.
  destruct (forallb _ test_urls) eqn:F.
  - rewrite (probe_all_failed _ _ _ F).
    change (last_down_time (skipped w test_urls self))
      with (last_down_time self).
    destruct (last_down_time self) eqn:D; cbn; [exact D|reflexivity].
  - destruct (probe_answer w test_urls self F) as (r & self' & E & L & _).
    now rewrite E.
Qed.

Lemma all_failed_unavailable w :
  all_failed w = true -> check_result w = all_checks_failed.
Proof.
  intros F. unfold check_result, check_internet_availability.
  now rewrite (probe_all_failed _ _ _ F).
Qed.

(** ** What the collectors leave untouched *)

Lemma speed_thread_last_down_time w a self :
  last_down_time (snd (speed_thread w a self)) = last_down_time self.
Proof.
  unfold speed_thread, measure_speed.
  destruct (available a), (speed_thread_end w); try reflexivity.
  destruct (speedtest_best_server w); [|reflexivity].
  destruct (speedtest_download w); [|reflexivity].
  now destruct (speedtest_upload w).
Qed.

Lemma get_network_info_last_down_time w self :
  last_down_time (snd (get_network_info w self)) = last_down_time self.
Proof.
  unfold get_network_info.
  destruct (netifaces_interfaces w); [|reflexivity].
  now destruct (scan_interfaces _ _ _) as [info [e|]].
Qed.

Lemma get_network_processes_last_down_time w self :
  last_down_time (snd (get_network_processes w self)) = last_down_time self.
Proof.
  unfold get_network_processes.
  destruct (net_connections w); [destruct (scan_connections _ _ _) as [ps [e|]]|];
    reflexivity.
Qed.

Lemma get_network_processes_any_state w self self' :
  fst (get_network_processes w self) = fst (get_network_processes w self').
Proof.
  unfold get_network_processes.
  destruct (net_connections w); [destruct (scan_connections _ _ _) as [ps [e|]]|];
    reflexivity.
Qed.

(** ** One cycle of [get_all_stats] *)

(** The cycle when the byte counters can be read: a snapshot is returned,
    its [last_down] is the text of the onset as the check left it, and the
    onset is cleared afterwards when the check was available. *)
Lemma get_all_stats_returns w self c :
  net_io_counters w = Ok c ->
  exists stats self',
    get_all_stats w self = (Return stats, self')
    /\ availability stats = check_result w
    /\ last_down stats =
       last_down_text (snd (check_internet_availability w self))
    /\ last_down_time self' =
       (if available (check_result w) then None
        else last_down_time (snd (check_internet_availability w self)))
    /\ traffic_stats self' = {| sent := fst c; recv := snd c |}
    /\ processes stats = fst (get_network_processes w self).
Proof.
  intros C. unfold get_all_stats, bind, total, gets, ret.
  rewrite <- (check_result_any_state w self).
  destruct (check_internet_availability w self) as [a s1] eqn:E1.
  pose proof (speed_thread_last_down_time w a s1) as L2.
  destruct (speed_thread w a s1) as [sp s2] eqn:E2.
  pose proof (get_network_info_last_down_time w s2) as L3.
  destruct (get_network_info w s2) as [ni s3] eqn:E3.
  unfold get_traffic_usage. rewrite C. destruct c as [cs cr].
  set (s4 := set_traffic_stats _ s3).
  pose proof (get_network_processes_last_down_time w s4) as L5.
  pose proof (get_network_processes_any_state w s4 self) as P5.
  assert (T5 : traffic_stats (snd (get_network_processes w s4)) =
               {| sent := cs; recv := cr |}).
  { unfold get_network_processes.
    destruct (net_connections w); [destruct (scan_connections _ _ _) as [ps [e|]]|];
      reflexivity. }
  destruct (get_network_processes w s4) as [pr s5] eqn:E5.
  cbn [fst snd] in *.
  assert (L : last_down_time s5 = last_down_time s1).
  { rewrite L5. unfold s4. cbn. congruence. }
  unfold restore, last_down_text. rewrite L.
  destruct (available a) eqn:A, (last_down_time s1) eqn:D;
    eexists _, _; (split; [reflexivity|]); cbn; rewrite ?L, ?D; auto.
Qed.

(** Without the byte counters the cycle raises what the read raised. *)
Lemma get_all_stats_raises w self e :
  net_io_counters w = Err e ->
  fst (get_all_stats w self) = Raise e.
Proof.
  intros C. unfold get_all_stats, bind, total, gets, ret.
  destruct (check_internet_availability w self) as [a s1].
  destruct (speed_thread w a s1) as [sp s2].
  destruct (get_network_info w s2) as [ni s3].
  unfold get_traffic_usage. now rewrite C.
Qed.

Lemma completes_iff w :
  completes w <-> exists c, net_io_counters w = Ok c.
Proof.
  split.
  - intros H. destruct (net_io_counters w) as [c|e] eqn:C; [now exists c|].
    destruct (H blank) as (stats & self' & E).
    pose proof (get_all_stats_raises w blank e C) as R.
    rewrite E in R. discriminate R.
  - intros [c C] self.
    destruct (get_all_stats_returns w self c C) as (stats & self' & E & _).
    now exists stats, self'.
Qed.

(** The onset after a cycle that returns. *)
Lemma cycle_is_down w self :
  completes w ->
  is_down (snd (get_all_stats w self)) =
  negb (available (check_result w)) && (is_down self || all_failed w).
Proof.
  intros H. apply completes_iff in H as [c C].
  destruct (get_all_stats_returns w self c C)
    as (stats & self' & E & _ & _ & L & _).
  rewrite E. cbn [snd]. unfold is_down. rewrite L, check_last_down_time.
  destruct (available (check_result w)) eqn:A; [reflexivity|].
  destruct (all_failed w), (last_down_time self); reflexivity.
Qed.

Lemma run_app ws1 ws2 self :
  run (ws1 ++ ws2) self = run ws2 (run ws1 self).
Proof. revert self. induction ws1; intros self; cbn; auto. Qed.

(** The onset across cycles, from any starting monitor. *)
Lemma run_is_down ws :
  Forall completes ws ->
  forall self,
    is_down (run ws self) = true <->
    (is_down self = true /\ Forall unavailable ws) \/ outage_pending ws.
Proof.
  induction 1 as [|w ws Hw Hws IH]; intros self.
  - cbn. split.
    + intros D. left. split; [exact D|constructor].
    + intros [[D _]|(pre & w & post & E & _)]; [exact D|].
      now destruct pre.
  - cbn [run]. rewrite IH, (cycle_is_down _ _ Hw). unfold unavailable at 1.
    split.
    + intros [[D U]|(pre & x & post & E & F & P)].
      * apply andb_prop in D as [A D]. apply negb_true_iff in A.
        apply orb_prop in D as [D|D].
        -- left. split; [exact D|]. constructor; assumption.
        -- right. exists [], w, ws. repeat split; assumption.
      * right. exists (w :: pre), x, post. rewrite E. repeat split; assumption.
    + intros [[D U]|(pre & x & post & E & F & P)].
      * inversion U as [|? ? A U']; subst. left. split; [|exact U'].
        unfold unavailable in A. now rewrite A, D.
      * destruct pre as [|y pre]; cbn in E; injection E as <- ->.
        -- left. split; [|exact P].
           rewrite F, (all_failed_unavailable _ F). cbn.
           apply orb_true_r.
        -- right. exists pre, x, post. repeat split; assumption.
Qed.

(** A monitor that was constructed starts UP. *)
Lemma init_is_up sw self :
  __init__ sw = (Return tt, self) -> last_down_time self = None.
Proof.
  unfold __init__, bind, total, _init_traffic_baseline.
  destruct (startup_counters sw) as [[s r]|e]; [|discriminate].
  intros E. apply (f_equal snd) in E. cbn [snd] in E. subst self.
  unfold _update_external_info.
  destruct (ipify sw) as [found|e]; [|reflexivity].
  destruct (negb _); [|reflexivity].
  destruct (ip_api sw _) as [resp|e]; [|reflexivity].
  destruct (_ =? 200); [|reflexivity].
  destruct (provider_json resp) as [[[isp|] [org|]]|e]; reflexivity.
Qed.

Lemma outage_pending_last ws w :
  outage_pending (ws ++ [w]) -> unavailable w.
Proof.
  intros (pre & x & post & E & F & P).
  induction post as [|y post' _] using rev_ind.
  - apply app_inj_tail in E as [_ ->].
    unfold unavailable. now rewrite (all_failed_unavailable _ F).
  - change (pre ++ x :: post' ++ [y])%list
      with (pre ++ (x :: post') ++ [y])%list in E.
    rewrite app_assoc in E. apply app_inj_tail in E as [_ ->].
    apply Forall_app in P as [_ P]. now inversion P.
Qed.

Lemma strftime_not_Never dt : strftime dt <> "Never".
Proof.
  intros E. apply (f_equal String.length) in E. discriminate E.
Qed.

(** ** The downtime tracker *)

(** C1 as worded fails: the first URL answers with status 500, the result
    is unavailable, the monitor was UP, and still no onset is recorded and
    no critical event is logged, neither by the check nor by the whole
    cycle. *)
Lemma http_error_result_records_no_onset :
  requests_get w_http_500 "https://www.google.com" =
    Response 500 t_start t_finish
  /\ available (fst (check_internet_availability w_http_500 blank)) = false
  /\ last_down_time blank = None
  /\ last_down_time (snd (check_internet_availability w_http_500 blank)) = None
  /\ logger (snd (check_internet_availability w_http_500 blank)) =
     [(WARNING, HTTP_Error 500 "https://www.google.com")]
  /\ last_down_time (snd (get_all_stats w_http_500 blank)) = None.
Proof. repeat split; vm_compute; reflexivity. Qed.

(** ** The snapshot and the recovery *)

(** C2, as the code has it.  The snapshot is assembled before the recovery
    is processed: its [last_down] is the text of the onset as the check
    left it.  On a cycle whose check is available that is the onset the
    monitor entered the cycle with, so the cycle that detects the recovery
    still reports the outage's onset, never ["Never"], while the monitor
    leaves the cycle with the onset cleared; on a cycle whose check is
    unavailable it is the onset the monitor leaves the cycle with. *)
Theorem snapshot_reports_onset_before_restore
    (w : World) (self self' : InternetMonitor) (stats : Snapshot) :
  get_all_stats w self = (Return stats, self') ->
  last_down stats = last_down_text (snd (check_internet_availability w self))
  /\ (available (availability stats) = true ->
        last_down stats = last_down_text self
        /\ last_down_time self' = None
        /\ forall onset, last_down_time self = Some onset ->
             last_down stats = strftime onset /\ last_down stats <> "Never")
  /\ (available (availability stats) = false ->
        last_down stats = last_down_text self').
Proof.
  intros E.
  destruct (net_io_counters w) as [c|e] eqn:C.
  2:{ pose proof (get_all_stats_raises w self e C) as R.
      rewrite E in R. discriminate R. }
  destruct (get_all_stats_returns w self c C)
    as (stats0 & self0 & E0 & A & D & L & _).
  rewrite E in E0. injection E0 as <- <-.
  split; [exact D|]. rewrite A.
  split; intros Av; rewrite Av in L.
  - destruct (all_failed w) eqn:F.
    { rewrite (all_failed_unavailable _ F) in Av. discriminate Av. }
    pose proof (check_last_down_time w self) as K. rewrite F in K.
    assert (T : last_down stats = last_down_text self).
    { rewrite D. unfold last_down_text. now rewrite K. }
    split; [exact T|]. split; [exact L|].
    intros onset O. rewrite T. unfold last_down_text. rewrite O.
    split; [reflexivity|apply strftime_not_Never].
  - rewrite D. unfold last_down_text. now rewrite L.
Qed.

Lemma snapshot_reports_onset_before_restore_witness :
  match get_all_stats w_up was_down with
  | (Return stats, self') =>
      available (availability stats) = true
      /\ last_down stats = "2024-03-09 12:00:05"
      /\ last_down stats <> "Never"
      /\ last_down_time self' = None
  | (Raise _, _) => False
  end.
Proof.
  destruct (get_all_stats w_up was_down) as [[stats|e] self'] eqn:E.
  - assert (A : available (availability stats) = true).
    { apply (f_equal fst) in E. vm_compute in E. now injection E as <-. }
    destruct (snapshot_reports_onset_before_restore _ _ _ _ E) as (_ & R & _).
    destruct (R A) as (_ & L & O).
    destruct (O noon eq_refl) as [T N].
    exact (conj A (conj T (conj N L))).
  - apply (f_equal fst) in E. vm_compute in E. discriminate E.
Defined.

(** C2 as worded fails: the monitor enters the cycle DOWN, the first URL
    answers 200, and the returned snapshot carries the onset of the outage
    in [last_down], while the monitor leaves the cycle with the onset
    cleared, so that [last_down] is not the text of the onset after the
    transition. *)
Lemma recovery_snapshot_is_not_never :
  match get_all_stats w_up was_down with
  | (Return stats, self') =>
      last_down_time was_down = Some noon
      /\ available (availability stats) = true
      /\ last_down_time self' = None
      /\ last_down_text self' = "Never"
      /\ last_down stats = "2024-03-09 12:00:05"
      /\ last_down stats <> last_down_text self'
      /\ logger self' = [(INFO, INTERNET_RESTORED_after later noon)]
  | (Raise _, _) => False
  end.
Proof. vm_compute. repeat split. discriminate. Qed.

(** ** Failures of the collectors *)

(** The collectors that carry a handler degrade: with every one of them
    failing, the cycle still returns a snapshot, its fields absent, "N/A"
    or empty, and each failure is in the log. *)
Example get_all_stats_degrades :
  get_all_stats w_degraded blank =
  (Return
     {| timestamp := "2024-03-09 12:00:15";
        availability := all_checks_failed;
        speed := no_speed;
        speed_pending := None;
        network_info :=
          {| hostname := "box"; local_ip := "N/A"; mac_address := "N/A";
             interface_name := "N/A"; info_external_ip := "N/A";
             info_provider := "N/A" |};
        traffic :=
          {| sent_total_mb := total_mb 5000; recv_total_mb := total_mb 7000;
             sent_rate_kbps := rate_kbps 5000;
             recv_rate_kbps := rate_kbps 7000 |};
        processes := [];
        last_down := "2024-03-09 12:00:05" |},
   {| logger :=
        [ (ERROR, Request_exception "Invalid URL");
          (ERROR, Request_exception "Invalid URL");
          (ERROR, Request_exception "Invalid URL");
          (CRITICAL, INTERNET_DOWN_Initial_detection);
          (ERROR, Network_info_error "interfaces unavailable");
          (ERROR, Process_scan_error "Permission denied") ];
      last_down_time := Some noon;
      traffic_stats := {| sent := 5000; recv := 7000 |};
      external_ip := "N/A";
      provider := "N/A";
      http_trace := test_urls |}).
Proof. reflexivity. Qed.

(** C3 fails on the code at the traffic sampler.  On a host where the
    counters cannot be read while everything else answers, [get_all_stats]
    raises the sampler's exception instead of returning a snapshot, and
    [update_cache] leaves the cache as it was. *)
Theorem get_all_stats_aborts_without_counters :
  net_io_counters w_no_counters =
    Err "'NoneType' object has no attribute 'bytes_sent'"
  /\ fst (get_all_stats w_no_counters blank) =
     Raise "'NoneType' object has no attribute 'bytes_sent'"
  /\ update_cache w_no_counters t_finish (app_start blank) =
     (Raise "'NoneType' object has no attribute 'bytes_sent'",
      app_start (snd (get_all_stats w_no_counters blank))).
Proof. repeat split. Qed.

(** ** The traffic accountant *)

Lemma get_traffic_usage_reads w self s r :
  net_io_counters w = Ok (s, r) ->
  get_traffic_usage w self =
  (Return {| sent_total_mb := total_mb s;
             recv_total_mb := total_mb r;
             sent_rate_kbps := rate_kbps (s - sent (traffic_stats self));
             recv_rate_kbps := rate_kbps (r - recv (traffic_stats self)) |},
   set_traffic_stats {| sent := s; recv := r |} self).
Proof. intros C. unfold get_traffic_usage. now rewrite C. Qed.

(** A delta of 102400 bytes is 80 kbit/s over the nominal interval. *)
Lemma rate_kbps_102400 : rate_kbps 102400 = PyFloat.of_int 80.
Proof. vm_compute. reflexivity. Qed.

Lemma rate_kbps_0 : rate_kbps 0 = S754_zero false.
Proof. reflexivity. Qed.

(** C4.  Of two consecutive samples, the second reports for each direction
    [round(d * 8 / 1024 / 10, 2)], [d] being the growth of the byte counter
    between the two reads, and [round(bytes / 1048576, 2)] as totals.  The
    divisor 10 is a constant: two worlds that agree on the counters give
    the same reading, whatever their clocks say.  A growth of 102400 sent
    bytes gives 80.0. *)
Theorem traffic_rates_over_nominal_interval
    (w1 w2 : World) (self : InternetMonitor) (s1 r1 s2 r2 : Z) :
  net_io_counters w1 = Ok (s1, r1) ->
  net_io_counters w2 = Ok (s2, r2) ->
  let self1 := snd (get_traffic_usage w1 self) in
  fst (get_traffic_usage w2 self1) =
    Return
      {| sent_total_mb := PyFloat.round2 (PyFloat.int_truediv s2 1048576);
         recv_total_mb := PyFloat.round2 (PyFloat.int_truediv r2 1048576);
         sent_rate_kbps :=
           PyFloat.round2
             (PyFloat.fdiv_int (PyFloat.int_truediv ((s2 - s1) * 8) 1024) 10);
         recv_rate_kbps :=
           PyFloat.round2
             (PyFloat.fdiv_int (PyFloat.int_truediv ((r2 - r1) * 8) 1024) 10)
      |}
  /\ (forall w2', net_io_counters w2' = Ok (s2, r2) ->
        fst (get_traffic_usage w2' self1) = fst (get_traffic_usage w2 self1))
  /\ (s2 - s1 = 102400 ->
        exists reading,
          fst (get_traffic_usage w2 self1) = Return reading
          /\ sent_rate_kbps reading = PyFloat.of_int 80).
Proof.
  intros C1 C2 self1. subst self1.
  rewrite (get_traffic_usage_reads _ _ _ _ C1). cbn [snd].
  rewrite (get_traffic_usage_reads _ _ _ _ C2). cbn [fst].
  split; [reflexivity|]. split.
  - intros w2' C2'. now rewrite (get_traffic_usage_reads _ _ _ _ C2').
  - intros D. eexists. split; [reflexivity|].
    cbn [sent_rate_kbps traffic_stats set_traffic_stats sent].
    rewrite D. exact rate_kbps_102400.
Qed.

Lemma traffic_rates_over_nominal_interval_witness :
  let w1 := host unreachable (Ok (5000, 7000)) (Ok []) in
  let w2 := host (answers 200) (Ok (107400, 7000)) (Ok []) in
  net_io_counters w1 = Ok (5000, 7000)
  /\ net_io_counters w2 = Ok (107400, 7000)
  /\ exists reading,
       fst (get_traffic_usage w2 (snd (get_traffic_usage w1 blank))) =
         Return reading
       /\ sent_rate_kbps reading = S754_finite false 5629499534213120 (-46).
Proof.
  intros w1 w2.
  destruct (traffic_rates_over_nominal_interval w1 w2 blank 5000 7000 107400 7000 eq_refl eq_refl)
    as (_ & _ & R).
  exact (conj eq_refl (conj eq_refl (R eq_refl))).
Defined.

(** C9.  A sample stores the counters it read, as read, in the baseline:
    the next sample measures its growth from them, and asking again
    while the counters stand still reports a rate of zero, the interval
    having been consumed by the first call. *)
Theorem traffic_baseline_is_absolute
    (w : World) (self : InternetMonitor) (s r : Z) :
  net_io_counters w = Ok (s, r) ->
  let self1 := snd (get_traffic_usage w self) in
  traffic_stats self1 = {| sent := s; recv := r |}
  /\ (forall w' s' r', net_io_counters w' = Ok (s', r') ->
        fst (get_traffic_usage w' self1) =
          Return {| sent_total_mb := total_mb s';
                    recv_total_mb := total_mb r';
                    sent_rate_kbps := rate_kbps (s' - s);
                    recv_rate_kbps := rate_kbps (r' - r) |})
  /\ fst (get_traffic_usage w self1) =
       Return {| sent_total_mb := total_mb s;
                 recv_total_mb := total_mb r;
                 sent_rate_kbps := S754_zero false;
                 recv_rate_kbps := S754_zero false |}.
Proof.
  intros C self1. subst self1.
  rewrite (get_traffic_usage_reads _ _ _ _ C). cbn [snd].
  split; [reflexivity|]. split.
  - intros w' s' r' C'. now rewrite (get_traffic_usage_reads _ _ _ _ C').
  - rewrite (get_traffic_usage_reads _ _ _ _ C). cbn.
    now rewrite !Z.sub_diag.
Qed.

(** The same counters read twice: 80.0 kbit/s, then 0.0. *)
Lemma traffic_baseline_is_absolute_witness :
  let w := host (answers 200) (Ok (102400, 0)) (Ok []) in
  net_io_counters w = Ok (102400, 0)
  /\ traffic_stats (snd (get_traffic_usage w blank)) =
     {| sent := 102400; recv := 0 |}
  /\ fst (get_traffic_usage w blank) <>
     fst (get_traffic_usage w (snd (get_traffic_usage w blank))).
Proof.
  intros w.
  destruct (traffic_baseline_is_absolute w blank 102400 0 eq_refl) as (B & _ & Z).
  split; [reflexivity|]. split; [exact B|].
  rewrite Z. vm_compute. discriminate.
Defined.

(** ** The connection census *)

Lemma resolves_iff w conn entry :
  resolves w conn entry <->
  exists p n,
    established_pid conn = Some p
    /\ process_lookup w p = ProcessName n
    /\ entry = process_entry conn p n.
Proof.
  unfold resolves, established_pid, process_entry, format_addr,
    CONN_ESTABLISHED.
  split.
  - intros (S & p & n & P & Z & L & ->). exists p, n.
    rewrite P, S. apply Z.eqb_neq in Z. rewrite String.eqb_refl, Z. auto.
  - intros (p & n & E & L & ->).
    destruct (String.eqb (conn_status conn) "ESTABLISHED") eqn:S;
      [|discriminate E].
    apply String.eqb_eq in S.
    destruct (conn_pid conn) as [q|]; [|discriminate E].
    destruct (q =? 0) eqn:Z; [discriminate E|]. apply Z.eqb_neq in Z.
    injection E as ->. split; [exact S|].
    exists p, n. rewrite S. auto.
Qed.

Lemma interrupts_iff w conn e :
  interrupts w conn e <->
  exists p, established_pid conn = Some p /\ process_lookup w p = OtherError e.
Proof.
  unfold interrupts, established_pid, CONN_ESTABLISHED. split.
  - intros (S & p & P & Z & L). exists p.
    rewrite P, S. apply Z.eqb_neq in Z. rewrite String.eqb_refl, Z. auto.
  - intros (p & E & L).
    destruct (String.eqb (conn_status conn) "ESTABLISHED") eqn:S;
      [|discriminate E].
    apply String.eqb_eq in S.
    destruct (conn_pid conn) as [q|]; [|discriminate E].
    destruct (q =? 0) eqn:Z; [discriminate E|]. apply Z.eqb_neq in Z.
    injection E as ->. split; [exact S|]. now exists p.
Qed.

(** The loop, by what it has scanned when it ends: the entries of the
    qualifying connections up to the first lookup that raises something
    the loop does not handle, or of all of them. *)
Lemma scan_connections_spec w conns :
  forall acc,
  exists scanned rest entries,
    conns = (scanned ++ rest)%list
    /\ (forall c e, In c scanned -> ~ interrupts w c e)
    /\ qualifying_entries w scanned entries
    /\ fst (scan_connections w conns acc) = (acc ++ entries)%list
    /\ ((rest = [] /\ snd (scan_connections w conns acc) = None)
        \/ exists c rest' e,
             rest = c :: rest' /\ interrupts w c e
             /\ snd (scan_connections w conns acc) = Some e).
Proof.
  induction conns as [|conn conns IH]; intros acc.
  - exists [], [], []. cbn. rewrite app_nil_r.
    split; [reflexivity|]. split; [intros c e []|].
    split; [apply qualifying_nil|]. split; [reflexivity|]. now left.
  - cbn [scan_connections].
    destruct (established_pid conn) as [p|] eqn:E.
    + destruct (process_lookup w p) as [n| | |e] eqn:L.
      * destruct (IH (acc ++ [process_entry conn p n])%list)
          as (scanned & rest & entries & -> & N & Q & F & R).
        exists (conn :: scanned), rest, (process_entry conn p n :: entries).
        split; [reflexivity|]. split.
        { intros c e [<-|I]; [|now apply N].
          rewrite interrupts_iff. intros (q & Eq & Lq).
          rewrite E in Eq. injection Eq as <-. congruence. }
        split.
        { apply qualifying_keep; [|exact Q].
          apply resolves_iff. now exists p, n. }
        split; [|exact R]. rewrite F, <- app_assoc. reflexivity.
      * destruct (IH acc) as (scanned & rest & entries & -> & N & Q & F & R).
        exists (conn :: scanned), rest, entries.
        split; [reflexivity|]. split.
        { intros c e [<-|I]; [|now apply N].
          rewrite interrupts_iff. intros (q & Eq & Lq).
          rewrite E in Eq. injection Eq as <-. congruence. }
        split; [|split; [exact F|exact R]].
        apply qualifying_skip; [|exact Q].
        intros entry. rewrite resolves_iff. intros (q & n & Eq & Lq & _).
        rewrite E in Eq. injection Eq as <-. congruence.
      * destruct (IH acc) as (scanned & rest & entries & -> & N & Q & F & R).
        exists (conn :: scanned), rest, entries.
        split; [reflexivity|]. split.
        { intros c e [<-|I]; [|now apply N].
          rewrite interrupts_iff. intros (q & Eq & Lq).
          rewrite E in Eq. injection Eq as <-. congruence. }
        split; [|split; [exact F|exact R]].
        apply qualifying_skip; [|exact Q].
        intros entry. rewrite resolves_iff. intros (q & n & Eq & Lq & _).
        rewrite E in Eq. injection Eq as <-. congruence.
      * exists [], (conn :: conns), []. cbn. rewrite app_nil_r.
        split; [reflexivity|]. split; [intros c e' []|].
        split; [apply qualifying_nil|]. split; [reflexivity|].
        right. exists conn, conns, e. split; [reflexivity|].
        split; [|reflexivity]. apply interrupts_iff. now exists p.
    + destruct (IH acc) as (scanned & rest & entries & -> & N & Q & F & R).
      exists (conn :: scanned), rest, entries.
      split; [reflexivity|]. split.
      { intros c e [<-|I]; [|now apply N].
        rewrite interrupts_iff. intros (q & Eq & _).
        rewrite E in Eq. discriminate Eq. }
      split; [|split; [exact F|exact R]].
      apply qualifying_skip; [|exact Q].
      intros entry. rewrite resolves_iff. intros (q & n & Eq & _).
      rewrite E in Eq. discriminate Eq.
Qed.

(** C5.  When the enumeration of connections fails, the census returns the
    empty list and logs the error; nothing is raised. *)
Theorem census_enumeration_failure_is_empty
    (w : World) (self : InternetMonitor) (e : exn) :
  net_connections w = Err e ->
  get_network_processes w self =
    ([], log ERROR (Process_scan_error e) self).
Proof. intros E. unfold get_network_processes. now rewrite E. Qed.

Lemma census_enumeration_failure_is_empty_witness :
  net_connections (host (answers 200) (Ok (0, 0)) (Err "Permission denied")) =
    Err "Permission denied"
  /\ fst (get_network_processes
            (host (answers 200) (Ok (0, 0)) (Err "Permission denied")) blank)
     = []
  /\ logger (snd (get_network_processes
            (host (answers 200) (Ok (0, 0)) (Err "Permission denied")) blank))
     = [(ERROR, Process_scan_error "Permission denied")].
Proof.
  pose proof (census_enumeration_failure_is_empty
                (host (answers 200) (Ok (0, 0)) (Err "Permission denied"))
                blank "Permission denied" eq_refl) as H.
  rewrite H. repeat split.
Defined.

(** C8, as the code has it.  Whatever the enumeration holds, the census
    returns at most 20 entries.  They are the first 20 entries, in
    enumeration order, of the qualifying connections among those the loop
    scanned: all the connections enumerated, unless the lookup of a process
    raises an exception other than the two the loop handles, which ends the
    scan at that connection and is logged. *)
Theorem census_first_20_qualifying (w : World) (self : InternetMonitor) :
  (List.length (fst (get_network_processes w self)) <= 20)%nat
  /\ forall conns, net_connections w = Ok conns ->
       exists scanned rest entries,
         conns = (scanned ++ rest)%list
         /\ (forall c e, In c scanned -> ~ interrupts w c e)
         /\ qualifying_entries w scanned entries
         /\ fst (get_network_processes w self) = firstn 20 entries
         /\ List.length (fst (get_network_processes w self)) =
            Nat.min 20 (List.length entries)
         /\ ((rest = [] /\ snd (get_network_processes w self) = self)
             \/ exists c rest' e,
                  rest = c :: rest' /\ interrupts w c e
                  /\ snd (get_network_processes w self) =
                     log ERROR (Process_scan_error e) self)
         /\ ((forall c e, In c conns -> ~ interrupts w c e) ->
             scanned = conns).
Proof.
  split.
  - unfold get_network_processes.
    destruct (net_connections w);
      [destruct (scan_connections _ _ _) as [ps [e|]]|]; cbn [fst];
      apply firstn_le_length.
  - intros conns E. unfold get_network_processes. rewrite E.
    destruct (scan_connections_spec w conns [])
      as (scanned & rest & entries & C & N & Q & F & R).
    exists scanned, rest, entries.
    destruct (scan_connections w conns []) as [ps o]. cbn [fst snd app] in *.
    subst ps. split; [exact C|]. split; [exact N|]. split; [exact Q|].
    assert (K : (rest = [] /\ snd (match o with
                                   | Some e =>
                                       (firstn 20 entries,
                                        log ERROR (Process_scan_error e) self)
                                   | None => (firstn 20 entries, self)
                                   end) = self)
                \/ exists c rest' e,
                     rest = c :: rest' /\ interrupts w c e
                     /\ snd (match o with
                             | Some e =>
                                 (firstn 20 entries,
                                  log ERROR (Process_scan_error e) self)
                             | None => (firstn 20 entries, self)
                             end) = log ERROR (Process_scan_error e) self).
    { destruct R as [[-> ->]|(c & rest' & e & -> & I & ->)].
      - now left.
      - right. now exists c, rest', e. }
    destruct o as [e|]; cbn [fst];
      (split; [reflexivity|]); (split; [apply length_firstn|]);
      (split; [exact K|]); intros A;
      destruct R as [[-> _]|(c & rest' & e' & -> & I & _)];
      try (now rewrite app_nil_r in C);
      exfalso; apply (A c e'); trivial; rewrite C;
      apply in_or_app; right; now left.
Qed.

Lemma resolves_established w n :
  process_lookup w (1000 + n) = ProcessName "curl" ->
  1000 + n <> 0 ->
  resolves w (established n) (process_entry (established n) (1000 + n) "curl").
Proof.
  intros L Z. split; [reflexivity|]. exists (1000 + n), "curl".
  repeat split; trivial.
Qed.

(** A hundred established connections in, twenty entries out: those of the
    first twenty connections. *)
Lemma census_first_20_qualifying_witness :
  let w := host (answers 200) (Ok (0, 0)) (Ok (synthetic 100)) in
  net_connections w = Ok (synthetic 100)
  /\ List.length (synthetic 100) = 100%nat
  /\ List.length (fst (get_network_processes w blank)) = 20%nat
  /\ map pid (fst (get_network_processes w blank)) =
     map (fun n => 1000 + Z.of_nat n)
       (rev (seq 81 20)).
Proof.
  intros w.
  destruct (census_first_20_qualifying w blank) as [B H].
  destruct (H (synthetic 100) eq_refl)
    as (scanned & rest & entries & _ & _ & _ & E & L & _).
  split; [reflexivity|]. split; [reflexivity|].
  split; [vm_compute; reflexivity|].
  vm_compute. reflexivity.
Defined.

(** C8 as worded fails: of five established connections whose processes
    all but the third resolve, the third lookup raising an [OSError], the
    census returns the entries of the first two, while the qualifying
    connections are the first, second, fourth and fifth. *)
Lemma census_cut_short_by_lookup_error :
  net_connections w_lookup_breaks =
    Ok [established 1; established 2; established 3; established 4;
        established 5]
  /\ qualifying_entries w_lookup_breaks
       [established 1; established 2; established 3; established 4;
        established 5]
       [process_entry (established 1) 1001 "curl";
        process_entry (established 2) 1002 "curl";
        process_entry (established 4) 1004 "curl";
        process_entry (established 5) 1005 "curl"]
  /\ fst (get_network_processes w_lookup_breaks blank) =
       [process_entry (established 1) 1001 "curl";
        process_entry (established 2) 1002 "curl"]
  /\ fst (get_network_processes w_lookup_breaks blank) <>
     firstn 20
       [process_entry (established 1) 1001 "curl";
        process_entry (established 2) 1002 "curl";
        process_entry (established 4) 1004 "curl";
        process_entry (established 5) 1005 "curl"]
  /\ logger (snd (get_network_processes w_lookup_breaks blank)) =
     [(ERROR, Process_scan_error "[Errno 24] Too many open files")].
Proof.
  split; [reflexivity|]. split.
  - apply (qualifying_keep _ _ _ _ _
             (resolves_established w_lookup_breaks 1 eq_refl
                ltac:(discriminate))).
    apply (qualifying_keep _ _ _ _ _
             (resolves_established w_lookup_breaks 2 eq_refl
                ltac:(discriminate))).
    apply qualifying_skip.
    { intros entry (_ & p & n & P & _ & L & _).
      injection P as <-. discriminate L. }
    apply (qualifying_keep _ _ _ _ _
             (resolves_established w_lookup_breaks 4 eq_refl
                ltac:(discriminate))).
    apply (qualifying_keep _ _ _ _ _
             (resolves_established w_lookup_breaks 5 eq_refl
                ltac:(discriminate))).
    apply qualifying_nil.
  - split; [reflexivity|]. split; [|reflexivity].
    vm_compute. discriminate.
Qed.

(** ** The cache of [app.py] *)

(** C10.  A read of [/api/stats] never writes the module's cache:
    [cached_stats] and [cache_time] are after the read what they were
    before it, on every path.  When the cache is older than [CACHE_TTL] the
    read runs [get_all_stats] and answers with what it returned.  The
    refresher is the one that replaces the cache and its time. *)
Theorem get_stats_leaves_cache
    (w : World) (now : PyFloat.float) (app : App) :
  cached_stats (snd (get_stats w now app)) = cached_stats app
  /\ cache_time (snd (get_stats w now app)) = cache_time app
  /\ (PyFloat.fgt (PyFloat.fsub now (cache_time app))
        (PyFloat.of_int CACHE_TTL) = true ->
      forall stats m,
        get_all_stats w (monitor app) = (Return stats, m) ->
        get_stats w now app =
          (Return (jsonify stats),
           {| monitor := m; cached_stats := cached_stats app;
              cache_time := cache_time app |})
        /\ update_cache w now app =
           (Return tt,
            {| monitor := m; cached_stats := Some stats;
               cache_time := now |})).
Proof.
  unfold get_stats, update_cache.
  destruct (PyFloat.fgt _ _) eqn:Stale.
  - destruct (get_all_stats w (monitor app)) as [[stats|e] m];
      cbn [snd cached_stats cache_time];
      (split; [reflexivity|]); (split; [reflexivity|]);
      intros _ stats' m' E.
    + injection E as <- <-. split; reflexivity.
    + discriminate E.
  - split; [reflexivity|]. split; [reflexivity|]. discriminate.
Qed.

Lemma get_stats_leaves_cache_witness :
  let app := app_start blank in
  PyFloat.fgt (PyFloat.fsub t_finish (cache_time app))
    (PyFloat.of_int CACHE_TTL) = true
  /\ cached_stats (snd (get_stats w_up t_finish app)) = None
  /\ cache_time (snd (get_stats w_up t_finish app)) = S754_zero false
  /\ match fst (get_stats w_up t_finish app) with
     | Return (jsonify stats) =>
         available (availability stats) = true
         /\ cached_stats (snd (update_cache w_up t_finish app)) = Some stats
     | Raise _ => False
     end.
Proof.
  intros app.
  assert (Stale : PyFloat.fgt (PyFloat.fsub t_finish (cache_time app))
                    (PyFloat.of_int CACHE_TTL) = true)
    by (vm_compute; reflexivity).
  destruct (get_stats_leaves_cache w_up t_finish app) as (C & T & R).
  split; [exact Stale|]. split; [exact C|]. split; [exact T|].
  destruct (get_all_stats w_up (monitor app)) as [[stats|e] m] eqn:E.
  - destruct (R Stale stats m eq_refl) as [G U]. rewrite G, U. cbn.
    split; [|reflexivity].
    apply (f_equal fst) in E. vm_compute in E. now injection E as <-.
  - apply (f_equal fst) in E. vm_compute in E. discriminate E.
Defined.

(** A read that finds the cache fresh has no value to return. *)
Lemma get_stats_fresh_cache w now app :
  PyFloat.fgt (PyFloat.fsub now (cache_time app))
    (PyFloat.of_int CACHE_TTL) = false ->
  get_stats w now app = (Raise UnboundLocalError, app).
Proof. intros Fresh. unfold get_stats. now rewrite Fresh. Qed.

(** * Further properties of the code *)

(** ** The shape of a check *)

(** The loop either answers at a URL that follows a run of failures, or
    fails on every URL. *)
Lemma probe_shape w urls :
  forall self,
    match probe w urls self with
    | (Some r, self') =>
        exists pre url post code start finish,
          urls = (pre ++ url :: post)%list
          /\ forallb (fun u => failed (requests_get w u)) pre = true
          /\ requests_get w url = Response code start finish
          /\ r = {| available := (200 <=? code) && (code <? 400);
                    status_code := code;
                    ping := Some (PyFloat.round2
                              (PyFloat.fmul_int (PyFloat.fsub finish start)
                                 1000));
                    test_url := Some url |}
          /\ http_trace self' = (http_trace self ++ pre ++ [url])%list
    | (None, self') =>
        forallb (fun u => failed (requests_get w u)) urls = true
        /\ self' = skipped w urls self
    end.
Proof.
  induction urls as [|u urls IH]; intros self.
  - cbn. split; [reflexivity|]. destruct self; unfold skipped; cbn.
    now rewrite !app_nil_r.
  - destruct (failed (requests_get w u)) eqn:F.
    + pose proof (probe_skips w [u] urls) as S. cbn [forallb app] in S.
      rewrite F in S. rewrite (S eq_refl self).
      specialize (IH (skipped w [u] self)).
      destruct (probe w urls (skipped w [u] self)) as [[r|] self'].
      * destruct IH as (pre & url & post & code & start & finish
                        & -> & P & A & R & T).
        exists (u :: pre), url, post, code, start, finish.
        cbn [forallb app]. rewrite F, P. repeat split; trivial.
        rewrite T. cbn. now rewrite <- app_assoc.
      * destruct IH as [P ->]. cbn [forallb]. rewrite F, P.
        split; [reflexivity|].
        pose proof (probe_all_failed w (u :: urls) self) as Q.
        cbn [forallb] in Q. rewrite F, P in Q. specialize (Q eq_refl).
        pose proof (probe_skips w [u] urls) as S'. cbn [forallb app] in S'.
        rewrite F in S'. rewrite (S' eq_refl self) in Q.
        rewrite (probe_all_failed _ _ _ P) in Q. exact (f_equal snd Q).
    + cbn [probe]. destruct (requests_get w u) eqn:G; try discriminate F.
      exists [], u, urls, code, start, finish. cbn.
      repeat split; try reflexivity; now destruct (code >=? 400).
Qed.

Lemma in_firstn_fwd {A} (n : nat) (l : list A) (x : A) :
  In x (firstn n l) -> In x l.
Proof.
  intros H. rewrite <- (firstn_skipn n l). apply in_or_app. now left.
Qed.

(** The requests of one check. *)
Lemma check_trace w self :
  exists k, (1 <= k <= 3)%nat
    /\ http_trace (snd (check_internet_availability w self)) =
       (http_trace self ++ firstn k test_urls)%list.
Proof.
  unfold check_internet_availability.
  pose proof (probe_shape w test_urls self) as S.
  destruct (probe w test_urls self) as [[r|] self'].
  - destruct S as (pre & url & post & code & start & finish
                   & E & P & A & -> & T).
    cbn [snd]. exists (S (List.length pre)). split.
    + apply (f_equal (@List.length string)) in E.
      rewrite length_app in E. cbn in E. lia.
    + rewrite T, E. f_equal.
      change (pre ++ url :: post)%list with (pre ++ [url] ++ post)%list.
      rewrite app_assoc.
      replace (S (List.length pre)) with (List.length (pre ++ [url]) + 0)%nat
        by (rewrite length_app; cbn; lia).
      rewrite firstn_app_2. cbn. now rewrite app_nil_r.
  - destruct S as [F ->]. cbn [snd]. exists 3%nat. split; [lia|].
    now destruct (last_down_time (skipped w test_urls self)).
Qed.

(** X1.  A check issues its requests in the order of the list, one per
    URL, at least one and at most three, and stops at the first answer:
    every URL requested before the last one raised, and the last one
    requested is the one that answered, unless all three raised.  The
    result names no URL and no ping exactly when every URL failed; an
    available result carries a status in [200, 400), and the URL it names
    is one of the three. *)
Theorem check_shape (w : World) (self : InternetMonitor) :
  let r := fst (check_internet_availability w self) in
  let self' := snd (check_internet_availability w self) in
  (exists k, (1 <= k <= 3)%nat
     /\ http_trace self' = (http_trace self ++ firstn k test_urls)%list
     /\ (forall u, In u (firstn (k - 1) test_urls) ->
           failed (requests_get w u) = true)
     /\ (all_failed w = false ->
         exists url,
           nth_error test_urls (k - 1) = Some url
           /\ failed (requests_get w url) = false
           /\ test_url r = Some url)
     /\ (all_failed w = true -> k = 3%nat))
  /\ (test_url r = None <-> all_failed w = true)
  /\ (ping r = None <-> all_failed w = true)
  /\ (available r = true ->
        200 <= status_code r < 400
        /\ exists url, test_url r = Some url /\ In url test_urls).
Proof.
  cbv zeta. unfold check_internet_availability, all_failed.
  pose proof (probe_shape w test_urls self) as S.
  destruct (probe w test_urls self) as [[r|] self'].
  - destruct S as (pre & url & post & code & start & finish
                   & E & P & A & -> & T).
    cbn [fst snd test_url ping available status_code].
    assert (F : forallb (fun u => failed (requests_get w u)) test_urls
                = false).
    { rewrite E, forallb_app. cbn [forallb]. rewrite A. cbn.
      now rewrite andb_false_r. }
    rewrite F. split.
    { exists (S (List.length pre)).
      assert (K : firstn (List.length pre) test_urls = pre).
      { rewrite E.
        replace (List.length pre) with (List.length pre + 0)%nat at 1 by lia.
        rewrite firstn_app_2. cbn. now rewrite app_nil_r. }
      split.
      { apply (f_equal (@List.length string)) in E.
        rewrite length_app in E. cbn in E. lia. }
      split.
      { rewrite T, E. f_equal.
        change (pre ++ url :: post)%list with (pre ++ [url] ++ post)%list.
        rewrite app_assoc.
        replace (S (List.length pre))
          with (List.length (pre ++ [url]) + 0)%nat
          by (rewrite length_app; cbn; lia).
        rewrite firstn_app_2. cbn. now rewrite app_nil_r. }
      replace (S (List.length pre) - 1)%nat with (List.length pre) by lia.
      split.
      { rewrite K. intros u I.
        now apply (proj1 (forallb_forall _ _) P). }
      split.
      { intros _. exists url. rewrite E, nth_error_app2 by lia.
        rewrite Nat.sub_diag, A. repeat split. }
      discriminate. }
    split; [split; discriminate|]. split; [split; discriminate|].
    intros Av. apply andb_prop in Av as [Lo Hi]. split; [lia|].
    exists url. split; [reflexivity|]. rewrite E.
    apply in_or_app. right. now left.
  - destruct S as [F ->]. rewrite F. cbn [fst snd]. split.
    { exists 3%nat. split; [lia|]. split.
      { now destruct (last_down_time (skipped w test_urls self)). }
      split.
      { intros u I. apply (proj1 (forallb_forall _ _) F).
        exact (in_firstn_fwd _ _ _ I). }
      split; [discriminate|reflexivity]. }
    split; [split; reflexivity|]. split; [split; reflexivity|].
    discriminate.
Qed.

(** ** What each step of a cycle does to the monitor *)

Lemma logs_minor_refl self : logs_minor self self.
Proof. exists []. now rewrite app_nil_r. Qed.

Lemma logs_minor_trans a b c :
  logs_minor a b -> logs_minor b c -> logs_minor a c.
Proof.
  intros (x & Ex & Fx) (y & Ey & Fy). exists (x ++ y)%list.
  rewrite Ey, Ex, <- app_assoc, forallb_app, Fx, Fy. auto.
Qed.

Lemma logs_minor_log l m self :
  minor (l, m) = true -> logs_minor self (log l m self).
Proof. intros H. exists [(l, m)]. cbn. now rewrite H. Qed.

Lemma count_level_app lv l1 l2 :
  count_level lv (l1 ++ l2) = (count_level lv l1 + count_level lv l2)%nat.
Proof. unfold count_level. now rewrite filter_app, length_app. Qed.

Lemma count_level_minor lv extra :
  minor (lv, INTERNET_DOWN_Initial_detection) = false ->
  forallb minor extra = true -> count_level lv extra = 0%nat.
Proof.
  intros L. induction extra as [|[l m] extra IH]; [reflexivity|].
  cbn [forallb]. intros H. apply andb_prop in H as [M H].
  unfold count_level in *. cbn [filter fst].
  destruct lv, l; try discriminate L; try discriminate M; cbn; auto.
Qed.

Lemma logs_minor_count lv self self' :
  minor (lv, INTERNET_DOWN_Initial_detection) = false ->
  logs_minor self self' ->
  count_level lv (logger self') = count_level lv (logger self).
Proof.
  intros L (extra & E & F).
  rewrite E, count_level_app, (count_level_minor _ _ L F). lia.
Qed.

Lemma step_refl self : step self self.
Proof. split; auto using logs_minor_refl. Qed.

Lemma step_trans a b c : step a b -> step b c -> step a c.
Proof.
  intros [] []. split; try congruence. eapply logs_minor_trans; eassumption.
Qed.

Lemma step_log_minor l m self : minor (l, m) = true -> step self (log l m self).
Proof. intros H. split; auto using logs_minor_log. Qed.

Lemma step_issue_get url self : step self (issue_get url self).
Proof. split; try reflexivity. exists []. cbn. now rewrite app_nil_r. Qed.

Lemma probe_step w urls :
  forall self, step self (snd (probe w urls self)).
Proof.
  induction urls as [|url urls IH]; intros self; cbn [probe].
  - apply step_refl.
  - destruct (requests_get w url).
    + cbn [snd]. eapply step_trans; [apply step_issue_get|].
      destruct (code >=? 400); [now apply step_log_minor|apply step_refl].
    + eapply step_trans; [apply step_issue_get|apply IH].
    + eapply step_trans; [apply step_issue_get|apply IH].
    + eapply step_trans; [apply step_issue_get|].
      eapply step_trans; [|apply IH]. now apply step_log_minor.
Qed.

Lemma speed_thread_step w a self : step self (snd (speed_thread w a self)).
Proof.
  unfold speed_thread, measure_speed.
  destruct (available a), (speed_thread_end w); try apply step_refl.
  destruct (speedtest_best_server w); [|now apply step_log_minor].
  destruct (speedtest_download w); [|now apply step_log_minor].
  destruct (speedtest_upload w); [apply step_refl|now apply step_log_minor].
Qed.

Lemma get_network_info_step w self :
  step self (snd (get_network_info w self)).
Proof.
  unfold get_network_info.
  destruct (netifaces_interfaces w); [|now apply step_log_minor].
  destruct (scan_interfaces _ _ _) as [info [e|]];
    [now apply step_log_minor|apply step_refl].
Qed.

Lemma get_network_processes_step w self :
  step self (snd (get_network_processes w self)).
Proof.
  unfold get_network_processes.
  destruct (net_connections w);
    [destruct (scan_connections _ _ _) as [ps [e|]]|];
    solve [apply step_refl | now apply step_log_minor].
Qed.

Lemma set_traffic_stats_step t self : step self (set_traffic_stats t self).
Proof. split; try reflexivity. exists []. cbn. now rewrite app_nil_r. Qed.

Lemma collected_step w self :
  step (snd (check_internet_availability w self)) (collected w self).
Proof.
  unfold collected.
  destruct (check_internet_availability w self) as [a s1]. cbn [snd].
  eapply step_trans; [apply speed_thread_step|].
  eapply step_trans; [apply get_network_info_step|].
  destruct (net_io_counters w) as [[cs cr]|e]; [|apply step_refl].
  eapply step_trans; [apply set_traffic_stats_step|].
  apply get_network_processes_step.
Qed.

(** The state a cycle ends in: the closing [if] runs when the cycle
    returns, and only then. *)
Lemma get_all_stats_state w self :
  snd (get_all_stats w self) =
  if counters_readable w
  then snd (restore w (check_result w) (collected w self))
  else collected w self.
Proof.
  unfold get_all_stats, bind, total, gets, ret, collected, counters_readable.
  rewrite <- (check_result_any_state w self).
  destruct (check_internet_availability w self) as [a s1]. cbn [fst snd].
  destruct (speed_thread w a s1) as [sp s2]. cbn [snd].
  destruct (get_network_info w s2) as [ni s3]. cbn [snd].
  unfold get_traffic_usage.
  destruct (net_io_counters w) as [[cs cr]|e]; [|reflexivity].
  destruct (get_network_processes w _) as [pr s5]. cbn [snd].
  now destruct (restore w a s5).
Qed.

Lemma get_all_stats_outcome w self :
  counters_readable w = false <-> exists e, fst (get_all_stats w self) = Raise e.
Proof.
  unfold counters_readable.
  destruct (net_io_counters w) as [c|e] eqn:C.
  - split; [discriminate|]. intros [e E].
    destruct (get_all_stats_returns w self c C) as (st & s' & R & _).
    rewrite R in E. discriminate E.
  - split; [|reflexivity]. intros _. exists e.
    now apply get_all_stats_raises.
Qed.

(** ** The log and the onset across cycles *)

Lemma check_log w self :
  logger (snd (check_internet_availability w self)) =
  (logger (snd (probe w test_urls self)) ++
     if all_failed w && negb (is_down self)
     then [(CRITICAL, INTERNET_DOWN_Initial_detection)] else [])%list.
Proof.
  unfold check_internet_availability, all_failed, is_down.
  destruct (forallb _ test_urls) eqn:F.
  - rewrite (probe_all_failed _ _ _ F). cbn [snd andb].
    change (last_down_time (skipped w test_urls self))
      with (last_down_time self).
    destruct (last_down_time self); cbn; now rewrite ?app_nil_r.
  - destruct (probe_answer w test_urls self F) as (r & s & E & _).
    rewrite E. cbn. now rewrite app_nil_r.
Qed.

Lemma check_counts w self :
  let self' := snd (check_internet_availability w self) in
  count_level CRITICAL (logger self') =
    (count_level CRITICAL (logger self)
     + b2n (all_failed w && negb (is_down self)))%nat
  /\ count_level INFO (logger self') = count_level INFO (logger self)
  /\ is_down self' = is_down self || all_failed w.
Proof.
  cbv zeta. rewrite check_log, !count_level_app.
  pose proof (step_log _ _ (probe_step w test_urls self)) as L.
  rewrite (logs_minor_count CRITICAL _ _ eq_refl L).
  rewrite (logs_minor_count INFO _ _ eq_refl L).
  unfold is_down. rewrite check_last_down_time.
  destruct (all_failed w), (last_down_time self); cbn; repeat split; lia.
Qed.

Lemma collected_counts w self :
  count_level CRITICAL (logger (collected w self)) =
    (count_level CRITICAL (logger self)
     + b2n (all_failed w && negb (is_down self)))%nat
  /\ count_level INFO (logger (collected w self)) =
     count_level INFO (logger self)
  /\ is_down (collected w self) = is_down self || all_failed w.
Proof.
  destruct (check_counts w self) as (C & I & D).
  destruct (collected_step w self) as [L T _ _].
  rewrite (logs_minor_count CRITICAL _ _ eq_refl L).
  rewrite (logs_minor_count INFO _ _ eq_refl L).
  unfold is_down in *. rewrite T. auto.
Qed.

Lemma collected_last_down_time w self :
  last_down_time (collected w self) =
  last_down_time (snd (check_internet_availability w self)).
Proof. apply (step_down _ _ (collected_step w self)). Qed.

(** The onset and the log after one cycle, whether it returns or raises. *)
Lemma cycle_counts w self :
  let self' := snd (get_all_stats w self) in
  let restored :=
    counters_readable w && available (check_result w) && is_down self in
  count_level CRITICAL (logger self') =
    (count_level CRITICAL (logger self)
     + b2n (all_failed w && negb (is_down self)))%nat
  /\ count_level INFO (logger self') =
     (count_level INFO (logger self) + b2n restored)%nat
  /\ is_down self' = negb restored && (is_down self || all_failed w).
Proof.
  cbv zeta. rewrite get_all_stats_state.
  destruct (collected_counts w self) as (C & I & D).
  destruct (counters_readable w); cbn [andb].
  2:{ cbn. rewrite C, I, D. repeat split; lia. }
  unfold restore.
  destruct (available (check_result w)) eqn:A; cbn [andb].
  2:{ cbn. rewrite C, I, D. repeat split; lia. }
  assert (F : all_failed w = false).
  { destruct (all_failed w) eqn:F; [|reflexivity].
    rewrite (all_failed_unavailable _ F) in A. discriminate A. }
  rewrite F, orb_false_r in D. rewrite F in *. cbn [andb orb b2n] in *.
  unfold is_down in D |- *.
  destruct (last_down_time (collected w self)) eqn:K;
    destruct (last_down_time self); try discriminate D; cbn [snd].
  - cbn [logger set_last_down_time log last_down_time].
    rewrite !count_level_app, C, I. cbn. repeat split; lia.
  - rewrite C, I, K. cbn. repeat split; lia.
Qed.

Lemma log_accounts_cycle w self :
  log_accounts self -> log_accounts (snd (get_all_stats w self)).
Proof.
  unfold log_accounts. intros H.
  destruct (cycle_counts w self) as (C & I & D). rewrite C, I, D, H.
  destruct (counters_readable w), (available (check_result w)) eqn:A,
    (is_down self), (all_failed w) eqn:F; cbn; try lia.
  all: rewrite (all_failed_unavailable _ F) in A; discriminate A.
Qed.

Lemma init_log sw self :
  __init__ sw = (Return tt, self) ->
  forallb minor (logger self) = true /\ http_trace self = [].
Proof.
  unfold __init__, bind, total, _init_traffic_baseline.
  destruct (startup_counters sw) as [[s r]|e]; [|discriminate].
  intros E. apply (f_equal snd) in E. cbn [snd] in E. subst self.
  unfold _update_external_info.
  destruct (ipify sw) as [found|e]; [|split; reflexivity].
  destruct (negb _); [|split; reflexivity].
  destruct (ip_api sw _) as [resp|e]; [|split; reflexivity].
  destruct (_ =? 200); [|split; reflexivity].
  destruct (provider_json resp) as [[[isp|] [org|]]|e]; split; reflexivity.
Qed.

(** X2.  From construction on, through any sequence of cycles, returning or
    raising, the log holds exactly one critical record per outage detected
    and one restoration record per outage ended: the critical records
    outnumber the restoration records by one while the monitor is DOWN,
    and match them while it is UP. *)
Theorem log_accounts_for_outages
    (sw : StartupWorld) (self : InternetMonitor) (ws : list World) :
  __init__ sw = (Return tt, self) ->
  count_level CRITICAL (logger (run ws self)) =
  (count_level INFO (logger (run ws self)) + b2n (is_down (run ws self)))%nat.
Proof.
  intros I.
  assert (A : log_accounts self).
  { unfold log_accounts, is_down. rewrite (init_is_up _ _ I).
    destruct (init_log _ _ I) as [M _].
    rewrite (count_level_minor CRITICAL _ eq_refl M).
    now rewrite (count_level_minor INFO _ eq_refl M). }
  clear I. revert self A.
  induction ws as [|w ws IH]; intros self A; [exact A|].
  cbn [run]. apply IH. now apply log_accounts_cycle.
Qed.

Lemma log_accounts_for_outages_witness :
  __init__ sw_offline = (Return tt, snd (__init__ sw_offline))
  /\ count_level CRITICAL
       (logger (run [w_down; w_still_down; w_http_500; w_up; w_down]
                  (snd (__init__ sw_offline)))) = 2%nat
  /\ count_level INFO
       (logger (run [w_down; w_still_down; w_http_500; w_up; w_down]
                  (snd (__init__ sw_offline)))) = 1%nat
  /\ is_down (run [w_down; w_still_down; w_http_500; w_up; w_down]
                (snd (__init__ sw_offline))) = true.
Proof.
  pose proof (log_accounts_for_outages sw_offline (snd (__init__ sw_offline))
                [w_down; w_still_down; w_http_500; w_up; w_down] eq_refl)
    as H.
  assert (I : count_level INFO
       (logger (run [w_down; w_still_down; w_http_500; w_up; w_down]
                  (snd (__init__ sw_offline)))) = 1%nat)
    by (vm_compute; reflexivity).
  assert (D : is_down (run [w_down; w_still_down; w_http_500; w_up; w_down]
                (snd (__init__ sw_offline))) = true)
    by (vm_compute; reflexivity).
  rewrite I, D in H.
  exact (conj eq_refl (conj H (conj I D))).
Defined.

Lemma cycle_keeps_onset w self onset :
  last_down_time self = Some onset ->
  last_down_time (snd (get_all_stats w self)) =
    (if counters_readable w && available (check_result w)
     then None else Some onset).
Proof.
  intros D. rewrite get_all_stats_state.
  pose proof (collected_last_down_time w self) as K.
  rewrite check_last_down_time, D in K.
  assert (K' : last_down_time (collected w self) = Some onset)
    by (now destruct (all_failed w)).
  destruct (counters_readable w); [|exact K'].
  unfold restore. rewrite K'.
  now destruct (available (check_result w)).
Qed.

(** X3.  While the monitor is DOWN the recorded onset is never replaced by a
    later time and no further critical record is logged: a cycle leaves
    the onset as it found it, unless the cycle returns with an available
    check, which clears it.  A cycle that raises clears nothing, even if
    its check was available. *)
Theorem onset_kept_while_down
    (w : World) (self : InternetMonitor) (onset : datetime) :
  last_down_time self = Some onset ->
  let self' := snd (get_all_stats w self) in
  last_down_time self' =
    (if counters_readable w && available (check_result w)
     then None else Some onset)
  /\ count_level CRITICAL (logger self') = count_level CRITICAL (logger self).
Proof.
  intros D self'. split; [now apply cycle_keeps_onset|].
  destruct (cycle_counts w self) as (C & _). subst self'. rewrite C.
  unfold is_down. rewrite D, andb_false_r. cbn. lia.
Qed.

Lemma onset_kept_while_down_witness :
  last_down_time was_down = Some noon
  /\ last_down_time (snd (get_all_stats w_still_down was_down)) = Some noon
  /\ last_down_time (snd (get_all_stats w_no_counters was_down)) = Some noon
  /\ last_down_time (snd (get_all_stats w_up was_down)) = None.
Proof.
  split; [reflexivity|]. split; [|split].
  - exact (proj1 (onset_kept_while_down w_still_down was_down noon eq_refl)).
  - exact (proj1 (onset_kept_while_down w_no_counters was_down noon eq_refl)).
  - exact (proj1 (onset_kept_while_down w_up was_down noon eq_refl)).
Defined.

Lemma run_keeps_onset mids :
  Forall unavailable mids ->
  forall self onset,
    last_down_time self = Some onset ->
    last_down_time (run mids self) = Some onset.
Proof.
  induction 1 as [|w mids U _ IH]; intros self onset D; [exact D|].
  cbn [run]. apply IH.
  rewrite (cycle_keeps_onset w self onset D).
  unfold unavailable in U. now rewrite U, andb_false_r.
Qed.

(** X4.  An outage that starts with a check failing on every URL, goes on
    through checks that are unavailable, and ends with a cycle that
    returns with an available check, closes with one restoration record as
    the last line of the log; the record pairs the time of the recovery
    with the time of the first failed check, and the monitor is UP again. *)
Theorem restoration_names_first_failure
    (w1 w_ok : World) (mids : list World) (self : InternetMonitor) :
  last_down_time self = None ->
  all_failed w1 = true ->
  Forall unavailable mids ->
  available (check_result w_ok) = true ->
  counters_readable w_ok = true ->
  let self' := run (w1 :: mids ++ [w_ok]) self in
  last_down_time self' = None
  /\ exists l,
       logger self' =
       (l ++ [(INFO, INTERNET_RESTORED_after (now_on_restore w_ok)
                       (now_on_failure w1))])%list.
Proof.
  intros Up F1 U A R self'. subst self'. cbn [run]. rewrite run_app. cbn [run].
  set (s1 := snd (get_all_stats w1 self)).
  assert (D1 : last_down_time s1 = Some (now_on_failure w1)).
  { unfold s1. rewrite get_all_stats_state.
    pose proof (collected_last_down_time w1 self) as K.
    rewrite check_last_down_time, F1, Up in K.
    rewrite (all_failed_unavailable _ F1). cbn [available all_checks_failed].
    destruct (counters_readable w1); [|exact K].
    unfold restore. cbn. exact K. }
  pose proof (run_keeps_onset mids U s1 _ D1) as D2.
  set (s2 := run mids s1) in *.
  rewrite get_all_stats_state, R.
  pose proof (collected_last_down_time w_ok s2) as K.
  rewrite check_last_down_time, D2 in K.
  assert (K' : last_down_time (collected w_ok s2) = Some (now_on_failure w1))
    by (now destruct (all_failed w_ok)).
  unfold restore. rewrite A, K'. cbn. split; [reflexivity|].
  now exists (logger (collected w_ok s2)).
Qed.

Lemma restoration_names_first_failure_witness :
  last_down_time blank = None
  /\ all_failed w_down = true
  /\ Forall unavailable [w_still_down; w_http_500]
  /\ available (check_result w_up) = true
  /\ counters_readable w_up = true
  /\ last_down_time (run [w_down; w_still_down; w_http_500; w_up] blank)
     = None
  /\ exists l,
       logger (run [w_down; w_still_down; w_http_500; w_up] blank) =
       (l ++ [(INFO, INTERNET_RESTORED_after later noon)])%list.
Proof.
  assert (U : Forall unavailable [w_still_down; w_http_500])
    by (repeat constructor).
  destruct (restoration_names_first_failure w_down w_up
              [w_still_down; w_http_500] blank
              eq_refl eq_refl U eq_refl eq_refl) as [D L].
  exact (conj eq_refl (conj eq_refl (conj U (conj eq_refl
           (conj eq_refl (conj D L)))))).
Defined.

(** ** The onset, the checks and the log *)

Lemma transition_minor l :
  forallb minor l = true -> forall acc, fold_left transition l acc = acc.
Proof.
  induction l as [|[lv m] l IH]; intros M acc; [reflexivity|].
  cbn [forallb] in M. apply andb_prop in M as [Mr Ml].
  cbn [fold_left]. rewrite (IH Ml).
  unfold transition. cbn [fst]. now destruct lv.
Qed.

Lemma open_outage_iff l : open_outage l <-> outage_logged l = true.
Proof.
  unfold outage_logged. split.
  - intros (before & m & after & -> & M).
    rewrite fold_left_app. cbn [fold_left].
    now rewrite (transition_minor _ M).
  - induction l as [|[lv m] l IH] using rev_ind; [discriminate|].
    rewrite fold_left_app. cbn [fold_left]. unfold transition at 1.
    cbn [fst]. destruct lv.
    + intros H. discriminate H.
    + intros H. destruct (IH H) as (before & m' & after & E & M).
      exists before, m', (after ++ [(WARNING, m)])%list. split.
      * rewrite E, <- app_assoc. reflexivity.
      * rewrite forallb_app. apply andb_true_intro. split; [exact M|reflexivity].
    + intros H. destruct (IH H) as (before & m' & after & E & M).
      exists before, m', (after ++ [(ERROR, m)])%list. split.
      * rewrite E, <- app_assoc. reflexivity.
      * rewrite forallb_app. apply andb_true_intro. split; [exact M|reflexivity].
    + intros _. exists l, m, []. split; reflexivity.
Qed.

Lemma outage_logged_minor self self' :
  logs_minor self self' ->
  outage_logged (logger self') = outage_logged (logger self).
Proof.
  intros (extra & E & M). unfold outage_logged.
  now rewrite E, fold_left_app, (transition_minor _ M).
Qed.

(** What one cycle, returning or raising, does to the outage the log
    shows. *)
Lemma cycle_outage_logged w self :
  outage_logged (logger self) = is_down self ->
  outage_logged (logger (snd (get_all_stats w self))) =
  is_down (snd (get_all_stats w self)).
Proof.
  intros Inv.
  destruct (cycle_counts w self) as (_ & _ & D). rewrite D. clear D.
  rewrite get_all_stats_state.
  assert (C : outage_logged (logger (collected w self)) =
              is_down self || all_failed w).
  { rewrite (outage_logged_minor _ _ (step_log _ _ (collected_step w self))).
    unfold outage_logged. rewrite check_log, fold_left_app.
    fold (outage_logged (logger (snd (probe w test_urls self)))).
    rewrite (outage_logged_minor _ _ (step_log _ _ (probe_step w test_urls self))).
    rewrite Inv. destruct (all_failed w), (is_down self); reflexivity. }
  pose proof (collected_last_down_time w self) as K.
  rewrite check_last_down_time in K.
  destruct (counters_readable w); cbn [andb negb]; [|exact C].
  unfold restore.
  destruct (available (check_result w)) eqn:A; cbn [andb negb snd];
    [|exact C].
  assert (F : all_failed w = false).
  { destruct (all_failed w) eqn:F; [|reflexivity].
    rewrite (all_failed_unavailable _ F) in A. discriminate A. }
  rewrite F in *. rewrite orb_false_r in C.
  unfold is_down in *. rewrite K.
  destruct (last_down_time self); cbn [snd negb andb].
  - cbn [logger set_last_down_time log]. unfold outage_logged.
    rewrite fold_left_app. reflexivity.
  - exact C.
Qed.

Lemma run_outage_logged ws :
  forall self,
    outage_logged (logger self) = is_down self ->
    outage_logged (logger (run ws self)) = is_down (run ws self).
Proof.
  induction ws as [|w ws IH]; intros self Inv; [exact Inv|].
  cbn [run]. apply IH. now apply cycle_outage_logged.
Qed.

(** C1, as the code has it.  In the UP state (no onset recorded, no outage
    open in the log) a check records the onset and logs the critical event
    exactly when every URL raised; a result with [available = False] that
    comes from an HTTP answer leaves the onset empty and appends only
    warnings and errors to the log.  Over cycles that return, starting
    UP, the onset is recorded if and only if some check had every URL fail
    and no check after it was available, and if and only if the log holds a
    critical record with no restoration record after it; a recorded onset
    therefore implies that the most recent check was unavailable and that
    no recovery has been logged since. *)
Theorem onset_recorded_iff_all_urls_failed
    (w : World) (ws : list World) (self : InternetMonitor) :
  last_down_time self = None ->
  ~ open_outage (logger self) ->
  Forall completes ws ->
  let r := fst (check_internet_availability w self) in
  let self' := snd (check_internet_availability w self) in
  (all_failed w = true ->
     r = all_checks_failed
     /\ last_down_time self' = Some (now_on_failure w)
     /\ logger self' =
        (logger self ++ request_errors w test_urls
           ++ [(CRITICAL, INTERNET_DOWN_Initial_detection)])%list)
  /\ (all_failed w = false ->
        last_down_time self' = None
        /\ exists extra,
             logger self' = (logger self ++ extra)%list
             /\ forallb minor extra = true)
  /\ (is_down (run ws self) = true <-> outage_pending ws)
  /\ (is_down (run ws self) = true <-> open_outage (logger (run ws self)))
  /\ (forall ws' w', ws = (ws' ++ [w'])%list ->
        is_down (run ws self) = true -> unavailable w').
Proof.
  intros Up Closed Complete r self'.
  assert (Inv : is_down (run ws self) = true <-> outage_pending ws).
  { rewrite (run_is_down ws Complete self). unfold is_down. rewrite Up.
    split; [intros [[D _]|P]; [discriminate D|exact P]|now right]. }
  split; [|split; [|split; [|split]]].
  - intros F. subst r self'. unfold check_internet_availability.
    rewrite (probe_all_failed _ _ _ F).
    change (last_down_time (skipped w test_urls self))
      with (last_down_time self).
    rewrite Up. cbn. rewrite <- app_assoc. auto.
  - intros F. subst r self'.
    pose proof (check_last_down_time w self) as L. rewrite F, Up in L.
    split; [exact L|].
    pose proof (check_log w self) as G. rewrite F in G. cbn [andb] in G.
    rewrite app_nil_r in G. rewrite G.
    exact (step_log _ _ (probe_step w test_urls self)).
  - exact Inv.
  - rewrite open_outage_iff. rewrite run_outage_logged; [reflexivity|].
    unfold is_down. rewrite Up.
    destruct (outage_logged (logger self)) eqn:O; [|reflexivity].
    elim Closed. now apply open_outage_iff.
  - intros ws' w' -> D. apply Inv in D. exact (outage_pending_last _ _ D).
Qed.

Lemma completes_host http c conns : completes (host http (Ok c) conns).
Proof. apply completes_iff. now exists c. Qed.

Lemma no_outage_in_empty_log : ~ open_outage [].
Proof. intros (before & m & after & E & _). now destruct before. Qed.

Lemma onset_recorded_iff_all_urls_failed_witness :
  last_down_time blank = None
  /\ ~ open_outage (logger blank)
  /\ Forall completes [w_down; w_http_500]
  /\ last_down_time (snd (check_internet_availability w_down blank)) =
     Some noon
  /\ is_down (run [w_down; w_http_500] blank) = true
  /\ open_outage (logger (run [w_down; w_http_500] blank))
  /\ unavailable w_http_500.
Proof.
  assert (C : Forall completes [w_down; w_http_500]).
  { repeat constructor; apply completes_host. }
  destruct (onset_recorded_iff_all_urls_failed w_down [w_down; w_http_500]
              blank eq_refl no_outage_in_empty_log C)
    as (A & _ & I & O & U).
  destruct (A eq_refl) as (_ & L & _).
  assert (D : is_down (run [w_down; w_http_500] blank) = true).
  { apply I. exists [], w_down, [w_http_500].
    repeat split. repeat constructor. }
  exact (conj eq_refl (conj no_outage_in_empty_log (conj C (conj L
           (conj D (conj (proj1 O D) (U [w_down] _ eq_refl D))))))).
Defined.

(** ** What a cycle never touches *)

Lemma collected_trace w self :
  http_trace (collected w self) =
  http_trace (snd (check_internet_availability w self)).
Proof.
  unfold collected.
  destruct (check_internet_availability w self) as [a s1]. cbn [snd].
  assert (S : http_trace (snd (speed_thread w a s1)) = http_trace s1).
  { unfold speed_thread, measure_speed.
    destruct (available a), (speed_thread_end w); try reflexivity.
    destruct (speedtest_best_server w); [|reflexivity].
    destruct (speedtest_download w); [|reflexivity].
    now destruct (speedtest_upload w). }
  set (s2 := snd (speed_thread w a s1)) in *.
  assert (N : http_trace (snd (get_network_info w s2)) = http_trace s2).
  { unfold get_network_info.
    destruct (netifaces_interfaces w); [|reflexivity].
    now destruct (scan_interfaces _ _ _) as [info [e|]]. }
  set (s3 := snd (get_network_info w s2)) in *.
  destruct (net_io_counters w) as [[cs cr]|e]; [|congruence].
  unfold get_network_processes.
  destruct (net_connections w);
    [destruct (scan_connections _ _ _) as [ps [e|]]|]; cbn; congruence.
Qed.

Lemma restore_frame w a self :
  external_ip (snd (restore w a self)) = external_ip self
  /\ provider (snd (restore w a self)) = provider self
  /\ http_trace (snd (restore w a self)) = http_trace self
  /\ traffic_stats (snd (restore w a self)) = traffic_stats self
  /\ exists extra, logger (snd (restore w a self)) =
                   (logger self ++ extra)%list.
Proof.
  unfold restore.
  destruct (available a), (last_down_time self); cbn; repeat split;
    solve [now exists [(INFO, INTERNET_RESTORED_after (now_on_restore w) d)]
          | exists []; now rewrite app_nil_r].
Qed.

Lemma probe_traffic_stats w urls :
  forall self, traffic_stats (snd (probe w urls self)) = traffic_stats self.
Proof.
  induction urls as [|u urls IH]; intros self; cbn [probe]; [reflexivity|].
  destruct (requests_get w u); rewrite ?IH; try reflexivity.
  cbn. now destruct (code >=? 400).
Qed.

Lemma check_frame w self :
  external_ip (snd (check_internet_availability w self)) = external_ip self
  /\ provider (snd (check_internet_availability w self)) = provider self
  /\ traffic_stats (snd (check_internet_availability w self)) =
     traffic_stats self.
Proof.
  unfold check_internet_availability.
  destruct (probe_step w test_urls self) as [_ _ I P].
  pose proof (probe_traffic_stats w test_urls self) as T.
  destruct (probe w test_urls self) as [[r|] s]; cbn [snd] in *.
  - auto.
  - destruct (last_down_time s); cbn; auto.
Qed.

(** X5.  A cycle, returning or raising, leaves the external address and the
    provider as the constructor set them, only appends to the log, and
    adds to the requests issued those of its one check: between one and
    three, in the order of the list. *)
Theorem get_all_stats_frame (w : World) (self : InternetMonitor) :
  let self' := snd (get_all_stats w self) in
  external_ip self' = external_ip self
  /\ provider self' = provider self
  /\ (exists extra, logger self' = (logger self ++ extra)%list)
  /\ (exists k, (1 <= k <= 3)%nat
        /\ http_trace self' = (http_trace self ++ firstn k test_urls)%list).
Proof.
  cbv zeta. rewrite get_all_stats_state.
  destruct (check_frame w self) as (I0 & P0 & _).
  destruct (collected_step w self) as [[x [Lx _]] _ I1 P1].
  pose proof (collected_trace w self) as T1.
  destruct (check_trace w self) as [k [K T0]].
  assert (L0 : exists y, logger (snd (check_internet_availability w self)) =
                         (logger self ++ y)%list).
  { rewrite check_log.
    destruct (step_log _ _ (probe_step w test_urls self)) as [y [Ly _]].
    rewrite Ly. eexists. now rewrite <- app_assoc. }
  destruct L0 as [y Ly].
  destruct (counters_readable w).
  - destruct (restore_frame w (check_result w) (collected w self))
      as (I2 & P2 & T2 & _ & [z Lz]).
    rewrite I2, P2, T2, Lz, I1, P1, T1, Lx, Ly.
    repeat split; try congruence.
    + eexists. now rewrite <- !app_assoc.
    + now exists k.
  - rewrite I1, P1, T1, Lx, Ly. repeat split; try congruence.
    + eexists. now rewrite <- !app_assoc.
    + now exists k.
Qed.

(** ** The speed probe *)

Lemma app_one_neq {A} (l : list A) (x : A) : (l ++ [x])%list <> l.
Proof.
  intros E. apply (f_equal (@List.length A)) in E.
  rewrite length_app in E. cbn in E. lia.
Qed.

(** X6.  [measure_speed] never raises and reports what it measured before a
    failure: an upload is reported only together with a download, a failed
    upload keeps the download that was measured, and the result lacks the
    upload exactly when one "Speedtest failed" record was logged. *)
Theorem measure_speed_partial (w : World) (self : InternetMonitor) :
  let r := fst (measure_speed w self) in
  let self' := snd (measure_speed w self) in
  (download r = None -> upload r = None)
  /\ (upload r = None <->
      exists e, logger self' =
                (logger self ++ [(ERROR, Speedtest_failed e)])%list)
  /\ (upload r <> None -> logger self' = logger self)
  /\ (forall d e,
        speedtest_best_server w = Ok tt ->
        speedtest_download w = Ok d ->
        speedtest_upload w = Err e ->
        r = {| download := Some (PyFloat.fdiv_int d 1000000);
               upload := None |}).
Proof.
  cbv zeta. unfold measure_speed.
  destruct (speedtest_best_server w) as [[]|e0].
  2:{ cbn. split; [trivial|]. split; [|split; [congruence|discriminate]].
      split; [now exists e0|trivial]. }
  destruct (speedtest_download w) as [d|e1].
  2:{ cbn. split; [trivial|]. split; [|split; [congruence|discriminate]].
      split; [now exists e1|trivial]. }
  destruct (speedtest_upload w) as [u|e2]; cbn.
  - split; [discriminate|]. split; [|split; [trivial|discriminate]].
    split; [discriminate|].
    intros [e E]. symmetry in E. now apply app_one_neq in E.
  - split; [trivial|]. split; [|split; [congruence|]].
    + split; [now exists e2|trivial].
    + intros d' e' _ D _. now injection D as <-.
Qed.

Lemma measure_speed_any_state w self self' :
  fst (measure_speed w self) = fst (measure_speed w self').
Proof.
  unfold measure_speed.
  destruct (speedtest_best_server w); [|reflexivity].
  destruct (speedtest_download w); [|reflexivity].
  now destruct (speedtest_upload w).
Qed.

Lemma speed_thread_any_state w a self self' :
  fst (speed_thread w a self) = fst (speed_thread w a self').
Proof.
  unfold speed_thread.
  destruct (available a), (speed_thread_end w); try reflexivity.
  - pose proof (measure_speed_any_state w self self') as E.
    destruct (measure_speed w self), (measure_speed w self'). cbn in *.
    now rewrite E.
  - now rewrite (measure_speed_any_state w self self').
  - now rewrite (measure_speed_any_state w self self').
Qed.

Lemma get_network_info_traffic_stats w self :
  traffic_stats (snd (get_network_info w self)) = traffic_stats self.
Proof.
  unfold get_network_info.
  destruct (netifaces_interfaces w); [|reflexivity].
  now destruct (scan_interfaces _ _ _) as [info [e|]].
Qed.

Lemma speed_thread_traffic_stats w a self :
  traffic_stats (snd (speed_thread w a self)) = traffic_stats self.
Proof.
  unfold speed_thread, measure_speed.
  destruct (available a), (speed_thread_end w); try reflexivity.
  destruct (speedtest_best_server w); [|reflexivity].
  destruct (speedtest_download w); [|reflexivity].
  now destruct (speedtest_upload w).
Qed.

(** The speed and the traffic fields of a returned snapshot. *)
Lemma get_all_stats_fields w self s r :
  net_io_counters w = Ok (s, r) ->
  exists stats self',
    get_all_stats w self = (Return stats, self')
    /\ speed stats = at_return (fst (speed_thread w (check_result w) self))
    /\ speed_pending stats =
       pending (fst (speed_thread w (check_result w) self))
    /\ traffic stats =
       {| sent_total_mb := total_mb s;
          recv_total_mb := total_mb r;
          sent_rate_kbps := rate_kbps (s - sent (traffic_stats self));
          recv_rate_kbps := rate_kbps (r - recv (traffic_stats self)) |}
    /\ network_info stats = fst (get_network_info w self)
    /\ timestamp stats = strftime (now_on_assembly w)
    /\ traffic_stats self' = {| sent := s; recv := r |}.
Proof.
  intros C. unfold get_all_stats, bind, total, gets, ret.
  rewrite <- (check_result_any_state w self).
  destruct (check_frame w self) as (I1 & P1 & T1).
  destruct (check_internet_availability w self) as [a s1]. cbn [fst snd] in *.
  pose proof (speed_thread_any_state w a s1 self) as S2.
  pose proof (speed_thread_traffic_stats w a s1) as T2.
  destruct (speed_thread_step w a s1) as [_ _ I2 P2].
  destruct (speed_thread w a s1) as [sp s2]. cbn [fst snd] in *.
  pose proof (get_network_info_traffic_stats w s2) as T3.
  assert (N3 : fst (get_network_info w s2) = fst (get_network_info w self)).
  { unfold get_network_info. rewrite I2, P2, I1, P1.
    destruct (netifaces_interfaces w); [|reflexivity].
    now destruct (scan_interfaces _ _ _) as [info [e|]]. }
  destruct (get_network_info w s2) as [ni s3]. cbn [fst snd] in *.
  unfold get_traffic_usage. rewrite C.
  set (s4 := set_traffic_stats _ s3).
  assert (T5 : traffic_stats (snd (get_network_processes w s4)) =
               {| sent := s; recv := r |}).
  { unfold get_network_processes.
    destruct (net_connections w); [destruct (scan_connections _ _ _) as [ps [e|]]|];
      reflexivity. }
  destruct (get_network_processes w s4) as [pr s5]. cbn [snd] in T5.
  destruct (restore_frame w a s5) as (_ & _ & _ & T6 & _).
  destruct (restore w a s5) as [[] s6]. cbn [snd] in T6.
  eexists _, _. split; [reflexivity|]. cbn.
  rewrite T3, T2, T1. repeat split; congruence.
Qed.

(** X7.  The ['speed'] entry of a snapshot is the dict the speed thread
    updates in place.  After an unavailable check no thread is started:
    both fields are [None] and stay so.  A thread that ends before
    [get_all_stats] returns, within the join or after it timed out, has
    put into the snapshot what [measure_speed] returned.  With a thread
    still running at the return, both fields read [None] then, and the
    entry receives the result of [measure_speed] afterwards.  A download
    speed read at the return is the measured bit rate divided by
    1000000. *)
Theorem snapshot_speed_gated
    (w : World) (self self' : InternetMonitor) (stats : Snapshot) :
  get_all_stats w self = (Return stats, self') ->
  (available (availability stats) = false ->
     speed stats = no_speed /\ speed_pending stats = None)
  /\ (available (availability stats) = true ->
      match speed_thread_end w with
      | BeforeJoin | BeforeReturn =>
          speed stats = fst (measure_speed w self)
          /\ speed_pending stats = None
      | AfterReturn =>
          speed stats = no_speed
          /\ speed_pending stats = Some (fst (measure_speed w self))
      end)
  /\ (forall x, download (speed stats) = Some x ->
        available (availability stats) = true
        /\ speed_thread_end w <> AfterReturn
        /\ exists d, speedtest_download w = Ok d
                     /\ x = PyFloat.fdiv_int d 1000000).
Proof.
  intros E.
  destruct (net_io_counters w) as [[s r]|e] eqn:C.
  2:{ pose proof (get_all_stats_raises w self e C) as R.
      rewrite E in R. discriminate R. }
  destruct (get_all_stats_returns w self _ C) as (st0 & s0 & E0 & A & _).
  destruct (get_all_stats_fields w self s r C)
    as (st1 & s1 & E1 & S & P & _).
  rewrite E in E0, E1. injection E0 as <- <-. injection E1 as <- <-.
  rewrite S, P, A. unfold speed_thread.
  destruct (available (check_result w)).
  2:{ cbn. split; [auto|]. split; [discriminate|]. discriminate. }
  split; [discriminate|]. split.
  - intros _. destruct (speed_thread_end w); cbn; auto.
    now destruct (measure_speed w self).
  - intros x X. split; [reflexivity|].
    assert (D : download (fst (measure_speed w self)) = Some x
                /\ speed_thread_end w <> AfterReturn).
    { destruct (speed_thread_end w); cbn in X.
      - destruct (measure_speed w self). split; [exact X|discriminate].
      - split; [exact X|discriminate].
      - discriminate X. }
    destruct D as [D N]. split; [exact N|].
    unfold measure_speed in D.
    destruct (speedtest_best_server w); [|discriminate D].
    destruct (speedtest_download w) as [d|]; [|discriminate D].
    exists d. split; [reflexivity|].
    destruct (speedtest_upload w); cbn in D; now injection D as <-.
Qed.

Lemma snapshot_speed_gated_witness :
  speed_thread_end w_thread_late = BeforeReturn
  /\ match get_all_stats w_thread_late blank with
     | (Return stats, _) =>
         available (availability stats) = true
         /\ speed stats =
            {| download := Some (PyFloat.of_int 94);
               upload := Some (PyFloat.of_int 11) |}
         /\ speed_pending stats = None
     | (Raise _, _) => False
     end.
Proof.
  split; [reflexivity|].
  destruct (get_all_stats w_thread_late blank) as [[stats|e] self'] eqn:E.
  - assert (A : available (availability stats) = true).
    { apply (f_equal fst) in E. vm_compute in E. now injection E as <-. }
    destruct (snapshot_speed_gated _ _ _ _ E) as (_ & G & _).
    destruct (G A) as [S P].
    split; [exact A|]. split; [|exact P].
    rewrite S. vm_compute. reflexivity.
  - apply (f_equal fst) in E. vm_compute in E. discriminate E.
Defined.

(** ** The network information *)

Lemma scan_interfaces_passes w pre rest info :
  (forall j, In j pre -> passed_over w j) ->
  scan_interfaces w (pre ++ rest) info = scan_interfaces w rest info.
Proof.
  induction pre as [|j pre IH]; intros P; [reflexivity|].
  cbn [app scan_interfaces].
  destruct (P j (or_introl eq_refl)) as (addrs & A & [N| ->]); rewrite A.
  - rewrite N. apply IH. intros k K. apply P. now right.
  - destruct (AF_INET addrs); apply IH; intros k K; apply P; now right.
Qed.

(** X8.  [get_network_info] reports the first interface, in enumeration
    order, that is not the loopback and has an IPv4 address: its name, the
    first of its IPv4 addresses and, when it has one, the first of its
    link addresses, next to the host name and the address and provider the
    monitor holds.  Interfaces before it are passed over. *)
Theorem network_info_first_interface
    (w : World) (self : InternetMonitor) (pre post : list string)
    (i a : string) (others : list string) (addrs : Ifaddresses) :
  netifaces_interfaces w = Ok (pre ++ i :: post)%list ->
  (forall j, In j pre -> passed_over w j) ->
  i <> "lo" ->
  netifaces_ifaddresses w i = Ok addrs ->
  AF_INET addrs = Some (a :: others) ->
  AF_LINK addrs <> Some [] ->
  get_network_info w self =
    ({| hostname := gethostname w;
        local_ip := a;
        mac_address :=
          match AF_LINK addrs with
          | Some (m :: _) => m
          | _ => "N/A"
          end;
        interface_name := i;
        info_external_ip := external_ip self;
        info_provider := provider self |}, self).
Proof.
  intros E P L A I M. unfold get_network_info. rewrite E.
  rewrite (scan_interfaces_passes _ _ _ _ P). cbn [scan_interfaces].
  rewrite A, I.
  apply String.eqb_neq in L. rewrite L. cbn [negb].
  destruct (AF_LINK addrs) as [[|m ms]|]; [now elim M|reflexivity..].
Qed.

Lemma network_info_first_interface_witness :
  netifaces_interfaces w_upload_fails = Ok (["lo"; "docker0"] ++ "eth0" :: [])%list
  /\ (forall j, In j ["lo"; "docker0"] -> passed_over w_upload_fails j)
  /\ get_network_info w_upload_fails blank =
     ({| hostname := "box"; local_ip := "192.168.1.7";
         mac_address := "aa:bb:cc:dd:ee:ff"; interface_name := "eth0";
         info_external_ip := "N/A"; info_provider := "N/A" |}, blank).
Proof.
  assert (P : forall j, In j ["lo"; "docker0"] -> passed_over w_upload_fails j).
  { intros j [<-|[<-|[]]]; eexists; (split; [reflexivity|]); cbn; auto. }
  split; [reflexivity|]. split; [exact P|].
  refine (network_info_first_interface w_upload_fails blank
            ["lo"; "docker0"] [] "eth0" "192.168.1.7" []
            {| AF_INET := Some ["192.168.1.7"];
               AF_LINK := Some ["aa:bb:cc:dd:ee:ff"] |}
            eq_refl P _ eq_refl eq_refl _); discriminate.
Defined.

(** X9.  When no enumerated interface qualifies (each is the loopback or has
    no IPv4 address), the three interface fields stay ["N/A"], nothing is
    logged and nothing is raised. *)
Theorem network_info_no_interface
    (w : World) (self : InternetMonitor) (interfaces : list string) :
  netifaces_interfaces w = Ok interfaces ->
  (forall j, In j interfaces -> passed_over w j) ->
  get_network_info w self =
    ({| hostname := gethostname w;
        local_ip := "N/A"; mac_address := "N/A"; interface_name := "N/A";
        info_external_ip := external_ip self;
        info_provider := provider self |}, self).
Proof.
  intros E P. unfold get_network_info. rewrite E.
  rewrite <- (app_nil_r interfaces).
  now rewrite (scan_interfaces_passes _ _ _ _ P).
Qed.

Lemma network_info_no_interface_witness :
  netifaces_interfaces w_loopback_only = Ok ["lo"; "docker0"]
  /\ (forall j, In j ["lo"; "docker0"] -> passed_over w_loopback_only j)
  /\ interface_name (fst (get_network_info w_loopback_only blank)) = "N/A"
  /\ local_ip (fst (get_network_info w_loopback_only blank)) = "N/A"
  /\ logger (snd (get_network_info w_loopback_only blank)) = [].
Proof.
  assert (P : forall j, In j ["lo"; "docker0"] -> passed_over w_loopback_only j).
  { intros j [<-|[<-|[]]]; eexists; (split; [reflexivity|]); cbn; auto. }
  split; [reflexivity|]. split; [exact P|].
  rewrite (network_info_no_interface w_loopback_only blank _ eq_refl P).
  repeat split.
Defined.

Lemma scan_interfaces_not_lo w interfaces :
  forall info,
    interface_name info <> "lo" ->
    hostname (fst (scan_interfaces w interfaces info)) = hostname info
    /\ info_external_ip (fst (scan_interfaces w interfaces info)) =
       info_external_ip info
    /\ info_provider (fst (scan_interfaces w interfaces info)) =
       info_provider info
    /\ interface_name (fst (scan_interfaces w interfaces info)) <> "lo".
Proof.
  induction interfaces as [|i rest IH]; intros info N; cbn [scan_interfaces].
  - auto.
  - destruct (netifaces_ifaddresses w i) as [addrs|e]; [|auto].
    destruct (AF_INET addrs) as [inet|]; [|now apply IH].
    destruct (String.eqb i "lo") eqn:L; cbn [negb]; [now apply IH|].
    apply String.eqb_neq in L.
    destruct inet as [|a inet]; [cbn; auto|].
    destruct (AF_LINK addrs) as [[|m ms]|]; cbn; auto.
Qed.

(** X10.  Whatever the host answers, failures included, the information
    returned never names the loopback interface, and always carries the
    host name and the external address and provider held by the monitor. *)
Theorem network_info_never_loopback (w : World) (self : InternetMonitor) :
  let info := fst (get_network_info w self) in
  interface_name info <> "lo"
  /\ hostname info = gethostname w
  /\ info_external_ip info = external_ip self
  /\ info_provider info = provider self.
Proof.
  cbv zeta. unfold get_network_info.
  destruct (netifaces_interfaces w) as [interfaces|e].
  2:{ cbn. repeat split. discriminate. }
  set (info0 := {| hostname := gethostname w; local_ip := "N/A";
                   mac_address := "N/A"; interface_name := "N/A";
                   info_external_ip := external_ip self;
                   info_provider := provider self |}).
  destruct (scan_interfaces_not_lo w interfaces info0) as (H & I & P & N);
    [discriminate|].
  destruct (scan_interfaces w interfaces info0) as [info [e|]];
    cbn [fst] in *; auto.
Qed.

(** ** Construction *)

(** X11.  [_update_external_info] never raises.  When the address lookup
    answers, the address it gave is kept whatever happens to the provider
    lookup; when it fails, address and provider stay as they were.  The
    provider changes only on a 200 answer from the provider service for that
    address, to the ISP if the answer names one, else to the organisation,
    else to ["N/A"]. *)
Theorem external_info_partial (sw : StartupWorld) (self : InternetMonitor) :
  let self' := snd (_update_external_info sw self) in
  (forall found, ipify sw = Ok found ->
     external_ip self' = match found with Some a => a | None => "N/A" end)
  /\ (forall e, ipify sw = Err e ->
        external_ip self' = external_ip self
        /\ provider self' = provider self
        /\ logger self' =
           (logger self ++ [(ERROR, External_info_update_failed e)])%list)
  /\ (provider self' <> provider self ->
      exists a resp isp org,
        ipify sw = Ok (Some a) /\ a <> "N/A"
        /\ ip_api sw a = Ok resp
        /\ provider_status_code resp = 200
        /\ provider_json resp = Ok (isp, org)
        /\ provider self' =
           match isp, org with
           | Some x, _ => x
           | None, Some y => y
           | None, None => "N/A"
           end).
Proof.
  cbv zeta. unfold _update_external_info.
  destruct (ipify sw) as [found|e0].
  2:{ split; [discriminate|]. split.
      - intros e E. injection E as <-. repeat split.
      - intros N. now elim N. }
  cbn [external_ip set_external_ip].
  set (a := match found with Some a => a | None => "N/A" end).
  destruct (String.eqb a "N/A") eqn:NA; cbn [negb].
  { split; [intros f F; now injection F as <-|].
    split; [discriminate|]. intros N. now elim N. }
  apply String.eqb_neq in NA.
  assert (F : found = Some a).
  { subst a. destruct found; [reflexivity|now elim NA]. }
  destruct (ip_api sw a) as [resp|e1] eqn:R.
  2:{ split; [intros f F'; now injection F' as <-|].
      split; [discriminate|]. intros N. now elim N. }
  destruct (provider_status_code resp =? 200) eqn:S.
  2:{ split; [intros f F'; now injection F' as <-|].
      split; [discriminate|]. intros N. now elim N. }
  apply Z.eqb_eq in S.
  destruct (provider_json resp) as [[isp org]|e2] eqn:J.
  2:{ split; [intros f F'; now injection F' as <-|].
      split; [discriminate|]. intros N. now elim N. }
  assert (X : exists a0 resp0 isp0 org0,
             Ok found = Ok (Some a0) /\ a0 <> "N/A"
             /\ ip_api sw a0 = Ok resp0
             /\ provider_status_code resp0 = 200
             /\ provider_json resp0 = Ok (isp0, org0)
             /\ match isp, org with
                | Some x, _ => x
                | None, Some y => y
                | None, None => "N/A"
                end =
                match isp0, org0 with
                | Some x, _ => x
                | None, Some y => y
                | None, None => "N/A"
                end).
  { exists a, resp, isp, org. rewrite F. repeat split; assumption. }
  destruct isp as [x|]; [|destruct org as [y|]];
    (split; [intros f F'; now injection F' as <-|]);
    (split; [discriminate|]); intros _; exact X.
Qed.

Lemma init_baseline sw self s r :
  __init__ sw = (Return tt, self) ->
  startup_counters sw = Ok (s, r) ->
  traffic_stats self = {| sent := s; recv := r |}.
Proof.
  unfold __init__, bind, total, _init_traffic_baseline. intros I E.
  rewrite E in I. apply (f_equal snd) in I. cbn [snd] in I. subst self.
  unfold _update_external_info.
  destruct (ipify sw) as [found|e]; [|reflexivity].
  destruct (negb _); [|reflexivity].
  destruct (ip_api sw _) as [resp|e]; [|reflexivity].
  destruct (_ =? 200); [|reflexivity].
  destruct (provider_json resp) as [[[isp|] [org|]]|e]; reflexivity.
Qed.

(** X12.  Once [_setup_logger] has returned the logger, constructing the
    monitor raises exactly when the first read of the byte counters fails.
    A failure of an external lookup (the address request, the provider
    request, or the JSON of a 200 answer of the provider service) is logged
    as one ERROR record and construction goes on, the address found so far
    being kept.  A constructed monitor is UP, its baseline holds the
    counters read, and its log is empty or holds that one record. *)
Theorem init_outcome (sw : StartupWorld) :
  (forall e, startup_counters sw = Err e -> fst (__init__ sw) = Raise e)
  /\ (forall s r, startup_counters sw = Ok (s, r) ->
        let self := snd (__init__ sw) in
        fst (__init__ sw) = Return tt
        /\ last_down_time self = None
        /\ traffic_stats self = {| sent := s; recv := r |}
        /\ (logger self = []
            \/ exists e,
                 logger self = [(ERROR, External_info_update_failed e)])
        /\ (forall e, ipify sw = Err e ->
              logger self = [(ERROR, External_info_update_failed e)]
              /\ external_ip self = "N/A" /\ provider self = "N/A")
        /\ (forall a e,
              ipify sw = Ok (Some a) -> a <> "N/A" -> ip_api sw a = Err e ->
              logger self = [(ERROR, External_info_update_failed e)]
              /\ external_ip self = a /\ provider self = "N/A")
        /\ (forall a resp e,
              ipify sw = Ok (Some a) -> a <> "N/A" ->
              ip_api sw a = Ok resp ->
              provider_status_code resp = 200 ->
              provider_json resp = Err e ->
              logger self = [(ERROR, External_info_update_failed e)]
              /\ external_ip self = a /\ provider self = "N/A")).
Proof.
  unfold __init__, bind, total, _init_traffic_baseline. split.
  - intros e E. now rewrite E.
  - intros s r E. rewrite E. cbv zeta.
    unfold _update_external_info.
    destruct (ipify sw) as [found|e0].
    2:{ cbn. repeat split; try discriminate.
        - right. now exists e0.
        - now injection H as <-. }
    cbn [external_ip set_external_ip].
    set (a := match found with Some a => a | None => "N/A" end).
    destruct (String.eqb a "N/A") eqn:NA; cbn [negb].
    { apply String.eqb_eq in NA. cbn.
      split; [reflexivity|]. split; [reflexivity|]. split; [reflexivity|].
      split; [now left|]. split; [discriminate|].
      split; intros a'; intros; exfalso;
        match goal with
        | H : Ok found = Ok (Some a') |- _ => injection H as ->
        end; cbn in a; subst a; contradiction. }
    apply String.eqb_neq in NA.
    assert (Fa : forall a', Ok found = Ok (Some a') -> a' = a).
    { intros a' H. injection H as ->. reflexivity. }
    destruct (ip_api sw a) as [resp|e1] eqn:R.
    2:{ cbn. split; [reflexivity|]. split; [reflexivity|].
        split; [reflexivity|]. split; [right; now exists e1|].
        split; [discriminate|]. split.
        - intros a' e I _ A. apply Fa in I. subst a'.
          rewrite R in A. injection A as <-. repeat split.
        - intros a' resp e I _ A. apply Fa in I. subst a'.
          rewrite R in A. discriminate A. }
    destruct (provider_status_code resp =? 200) eqn:S.
    2:{ cbn. split; [reflexivity|]. split; [reflexivity|].
        split; [reflexivity|]. split; [now left|].
        split; [discriminate|]. split.
        - intros a' e I _ A. apply Fa in I. subst a'.
          rewrite R in A. discriminate A.
        - intros a' resp' e I _ A C. apply Fa in I. subst a'.
          rewrite R in A. injection A as <-.
          apply Z.eqb_neq in S. contradiction. }
    destruct (provider_json resp) as [[isp org]|e2] eqn:J.
    2:{ cbn. split; [reflexivity|]. split; [reflexivity|].
        split; [reflexivity|]. split; [right; now exists e2|].
        split; [discriminate|]. split.
        - intros a' e I _ A. apply Fa in I. subst a'.
          rewrite R in A. discriminate A.
        - intros a' resp' e I _ A _ B. apply Fa in I. subst a'.
          rewrite R in A. injection A as <-.
          rewrite J in B. injection B as <-. repeat split. }
    assert (G : forall self0 : InternetMonitor,
               logger self0 = [] ->
               last_down_time self0 = None ->
               traffic_stats self0 = {| sent := s; recv := r |} ->
               last_down_time self0 = None
               /\ traffic_stats self0 = {| sent := s; recv := r |}
               /\ (logger self0 = []
                   \/ exists e,
                        logger self0 = [(ERROR, External_info_update_failed e)])
               /\ (forall e, Ok found = Err e ->
                     logger self0 = [(ERROR, External_info_update_failed e)]
                     /\ external_ip self0 = "N/A" /\ provider self0 = "N/A")
               /\ (forall a' e,
                     Ok found = Ok (Some a') -> a' <> "N/A" ->
                     ip_api sw a' = Err e ->
                     logger self0 = [(ERROR, External_info_update_failed e)]
                     /\ external_ip self0 = a' /\ provider self0 = "N/A")
               /\ (forall a' resp' e,
                     Ok found = Ok (Some a') -> a' <> "N/A" ->
                     ip_api sw a' = Ok resp' ->
                     provider_status_code resp' = 200 ->
                     provider_json resp' = Err e ->
                     logger self0 = [(ERROR, External_info_update_failed e)]
                     /\ external_ip self0 = a' /\ provider self0 = "N/A")).
    { intros self0 L D T. split; [exact D|]. split; [exact T|].
      split; [now left|]. split; [discriminate|]. split.
      - intros a' e I _ A. apply Fa in I. subst a'.
        rewrite R in A. discriminate A.
      - intros a' resp' e I _ A _ B. apply Fa in I. subst a'.
        rewrite R in A. injection A as <-. rewrite J in B. discriminate B. }
    destruct isp as [x|]; [|destruct org as [y|]];
      (split; [reflexivity|]); apply G; reflexivity.
Qed.

(** ** Readers, the refresher and the traffic baseline *)

(** X13.  [GET /api/stats] never answers with the cached snapshot.  A read
    that finds the cache no older than [CACHE_TTL] raises
    [UnboundLocalError] and changes nothing; every body the handler returns
    is the snapshot of a [get_all_stats] it ran itself on a stale cache.
    So does a read that follows a refresh by no more than [CACHE_TTL]
    seconds. *)
Theorem get_stats_never_serves_cache
    (w0 w : World) (t now : PyFloat.float) (app : App) :
  PyFloat.fgt (PyFloat.fsub now t) (PyFloat.of_int CACHE_TTL) = false ->
  fst (update_cache w0 t app) = Return tt ->
  get_stats w now (snd (update_cache w0 t app)) =
    (Raise UnboundLocalError, snd (update_cache w0 t app))
  /\ (forall now' body,
        fst (get_stats w now' app) = Return body ->
        PyFloat.fgt (PyFloat.fsub now' (cache_time app))
          (PyFloat.of_int CACHE_TTL) = true
        /\ exists stats m,
             get_all_stats w (monitor app) = (Return stats, m)
             /\ body = jsonify stats).
Proof.
  intros Fresh Refreshed. split.
  - apply get_stats_fresh_cache.
    unfold update_cache in *.
    destruct (get_all_stats w0 (monitor app)) as [[stats|e] m];
      [exact Fresh|discriminate Refreshed].
  - clear Fresh Refreshed. intros now' body. unfold get_stats.
    destruct (PyFloat.fgt _ _); [|cbn; intros E; discriminate E].
    destruct (get_all_stats w (monitor app)) as [[stats|e] m];
      [|cbn; intros E; discriminate E].
    cbn. intros E. injection E as <-. split; [reflexivity|].
    now exists stats, m.
Qed.

Lemma get_stats_never_serves_cache_witness :
  let app := app_start blank in
  let three_seconds_on := PyFloat.int_truediv 171000000304 100 in
  PyFloat.fgt (PyFloat.fsub three_seconds_on t_finish)
    (PyFloat.of_int CACHE_TTL) = false
  /\ fst (update_cache w_up t_finish app) = Return tt
  /\ cached_stats (snd (update_cache w_up t_finish app)) <> None
  /\ fst (get_stats w_up three_seconds_on (snd (update_cache w_up t_finish app)))
     = Raise UnboundLocalError.
Proof.
  intros app three_seconds_on.
  assert (F : PyFloat.fgt (PyFloat.fsub three_seconds_on t_finish)
                (PyFloat.of_int CACHE_TTL) = false)
    by (vm_compute; reflexivity).
  assert (R : fst (update_cache w_up t_finish app) = Return tt)
    by (vm_compute; reflexivity).
  destruct (get_stats_never_serves_cache w_up w_up t_finish three_seconds_on
              app F R) as [G _].
  split; [exact F|]. split; [exact R|]. split.
  - vm_compute. discriminate.
  - now rewrite G.
Defined.

(** X14.  A reader's recomputation consumes the traffic interval: when a
    stale read ran [get_all_stats] and the refresher runs next, the rates
    the refresher caches measure the growth of the counters since the
    reader's sample, not since the refresher's previous one. *)
Theorem reader_consumes_interval
    (w1 w2 : World) (now t : PyFloat.float) (app : App) (s1 r1 s2 r2 : Z) :
  PyFloat.fgt (PyFloat.fsub now (cache_time app))
    (PyFloat.of_int CACHE_TTL) = true ->
  net_io_counters w1 = Ok (s1, r1) ->
  net_io_counters w2 = Ok (s2, r2) ->
  let app1 := snd (get_stats w1 now app) in
  exists stats,
    cached_stats (snd (update_cache w2 t app1)) = Some stats
    /\ cache_time (snd (update_cache w2 t app1)) = t
    /\ sent_rate_kbps (traffic stats) = rate_kbps (s2 - s1)
    /\ recv_rate_kbps (traffic stats) = rate_kbps (r2 - r1).
Proof.
  intros Stale C1 C2 app1. subst app1. unfold get_stats. rewrite Stale.
  destruct (get_all_stats_fields w1 (monitor app) s1 r1 C1)
    as (st1 & m1 & E1 & _ & _ & _ & _ & _ & B1).
  rewrite E1. cbn [snd]. unfold update_cache. cbn [monitor].
  destruct (get_all_stats_fields w2 m1 s2 r2 C2)
    as (st2 & m2 & E2 & _ & _ & T2 & _).
  rewrite E2. cbn [snd cached_stats cache_time]. exists st2.
  rewrite T2, B1. cbn. auto.
Qed.

Lemma reader_consumes_interval_witness :
  let app := snd (update_cache w_up t_start (app_start blank)) in
  let w_read := host (answers 200) (Ok (56200, 7000)) (Ok []) in
  let w_tick := host (answers 200) (Ok (107400, 7000)) (Ok []) in
  let ten_seconds_on := PyFloat.of_int 1710000010 in
  PyFloat.fgt (PyFloat.fsub t_finish (cache_time (app_start blank)))
    (PyFloat.of_int CACHE_TTL) = true
  /\ exists stats,
       cached_stats
         (snd (update_cache w_tick ten_seconds_on
                 (snd (get_stats w_read t_finish (app_start blank)))))
       = Some stats
       /\ sent_rate_kbps (traffic stats) = rate_kbps 51200.
Proof.
  intros app w_read w_tick ten_seconds_on.
  assert (S : PyFloat.fgt (PyFloat.fsub t_finish (cache_time (app_start blank)))
                (PyFloat.of_int CACHE_TTL) = true)
    by (vm_compute; reflexivity).
  destruct (reader_consumes_interval w_read w_tick t_finish ten_seconds_on
              (app_start blank) 56200 7000 107400 7000 S eq_refl eq_refl)
    as (stats & C & _ & R & _).
  split; [exact S|]. exists stats. split; [exact C|exact R].
Defined.

Lemma collected_traffic_stats w self :
  counters_readable w = false ->
  traffic_stats (collected w self) = traffic_stats self.
Proof.
  unfold counters_readable, collected. intros R.
  destruct (check_frame w self) as (_ & _ & T1).
  destruct (check_internet_availability w self) as [a s1]. cbn [snd] in *.
  destruct (net_io_counters w); [discriminate R|].
  now rewrite get_network_info_traffic_stats, speed_thread_traffic_stats.
Qed.

(** X15.  A cycle that raises leaves the traffic baseline as it found it: the
    next cycle that returns reports the growth of the counters since the
    last sample that was read, across the failed one. *)
Theorem failed_cycle_keeps_baseline
    (wf w : World) (self : InternetMonitor) (e : exn) (s r : Z) :
  net_io_counters wf = Err e ->
  net_io_counters w = Ok (s, r) ->
  traffic_stats (snd (get_all_stats wf self)) = traffic_stats self
  /\ exists stats self',
       get_all_stats w (snd (get_all_stats wf self)) = (Return stats, self')
       /\ sent_rate_kbps (traffic stats) =
          rate_kbps (s - sent (traffic_stats self))
       /\ recv_rate_kbps (traffic stats) =
          rate_kbps (r - recv (traffic_stats self)).
Proof.
  intros F C.
  assert (R : counters_readable wf = false)
    by (unfold counters_readable; now rewrite F).
  assert (B : traffic_stats (snd (get_all_stats wf self)) =
              traffic_stats self).
  { rewrite get_all_stats_state, R. now apply collected_traffic_stats. }
  split; [exact B|].
  destruct (get_all_stats_fields w (snd (get_all_stats wf self)) s r C)
    as (stats & self' & E & _ & _ & T & _).
  exists stats, self'. split; [exact E|]. rewrite T, B. now split.
Qed.

Lemma failed_cycle_keeps_baseline_witness :
  net_io_counters w_no_counters =
    Err "'NoneType' object has no attribute 'bytes_sent'"
  /\ net_io_counters w_upload_fails = Ok (107400, 7000)
  /\ exists stats self',
       get_all_stats w_upload_fails
         (snd (get_all_stats w_no_counters
                 (set_traffic_stats {| sent := 5000; recv := 7000 |} blank)))
       = (Return stats, self')
       /\ sent_rate_kbps (traffic stats) = rate_kbps 102400.
Proof.
  destruct (failed_cycle_keeps_baseline w_no_counters w_upload_fails
              (set_traffic_stats {| sent := 5000; recv := 7000 |} blank)
              _ 107400 7000 eq_refl eq_refl)
    as (_ & stats & self' & E & S & _).
  split; [reflexivity|]. split; [reflexivity|].
  exists stats, self'. split; [exact E|exact S].
Defined.

(** X16.  The rates of the first snapshot of a monitor measure the growth of
    the counters since its construction. *)
Theorem first_cycle_measures_from_construction
    (sw : StartupWorld) (w : World) (self : InternetMonitor)
    (s0 r0 s1 r1 : Z) :
  __init__ sw = (Return tt, self) ->
  startup_counters sw = Ok (s0, r0) ->
  net_io_counters w = Ok (s1, r1) ->
  exists stats self',
    get_all_stats w self = (Return stats, self')
    /\ sent_rate_kbps (traffic stats) = rate_kbps (s1 - s0)
    /\ recv_rate_kbps (traffic stats) = rate_kbps (r1 - r0)
    /\ last_down stats =
       (if all_failed w then strftime (now_on_failure w) else "Never").
Proof.
  intros I C0 C1.
  pose proof (init_is_up _ _ I) as U.
  pose proof (init_baseline _ _ _ _ I C0) as B.
  destruct (get_all_stats_fields w self s1 r1 C1)
    as (stats & self' & E & _ & _ & T & _).
  destruct (get_all_stats_returns w self _ C1)
    as (stats0 & self0 & E0 & _ & D & _).
  rewrite E in E0. injection E0 as <- <-.
  exists stats, self'. split; [exact E|]. rewrite T, B, D.
  unfold last_down_text. rewrite check_last_down_time, U.
  cbn [sent_rate_kbps recv_rate_kbps sent recv].
  split; [reflexivity|]. split; [reflexivity|]. now destruct (all_failed w).
Qed.

Lemma first_cycle_measures_from_construction_witness :
  __init__ sw_offline = (Return tt, snd (__init__ sw_offline))
  /\ exists stats self',
       get_all_stats w_upload_fails (snd (__init__ sw_offline)) =
         (Return stats, self')
       /\ sent_rate_kbps (traffic stats) = PyFloat.of_int 80
       /\ last_down stats = "Never".
Proof.
  destruct (first_cycle_measures_from_construction sw_offline w_upload_fails
              (snd (__init__ sw_offline)) 5000 7000 107400 7000
              eq_refl eq_refl eq_refl) as (stats & self' & E & S & _ & D).
  split; [reflexivity|]. exists stats, self'.
  split; [exact E|]. split; [|exact D].
  rewrite S. exact rate_kbps_102400.
Defined.

(** ** The tail of the log *)

(** X17.  [GET /api/logs] answers with the last 50 lines of the log file, in
    order: all of them when the file has at most 50.  A file that does not
    exist gives the empty list; any other failure to read is raised. *)
Theorem get_logs_tail (lines : list string) :
  exists logs dropped,
    get_logs (FileLines lines) = Return logs
    /\ lines = (dropped ++ logs)%list
    /\ List.length logs = Nat.min 50 (List.length lines)
    /\ ((List.length lines <= 50)%nat -> logs = lines)
    /\ get_logs FileNotFoundError = Return []
    /\ forall e, get_logs (OtherReadError e) = Raise e.
Proof.
  exists (last_lines 50 lines), (firstn (List.length lines - 50) lines).
  unfold last_lines. split; [reflexivity|]. split.
  - now rewrite firstn_skipn.
  - split; [rewrite length_skipn; lia|]. split; [|split; reflexivity].
    intros L. replace (List.length lines - 50)%nat with 0%nat by lia.
    reflexivity.
Qed.

(** ** The entries of the census *)

Lemma in_firstn {A} (n : nat) (l : list A) (x : A) :
  In x (firstn n l) -> In x l.
Proof.
  intros H. rewrite <- (firstn_skipn n l). apply in_or_app. now left.
Qed.

Lemma qualifying_entries_in w conns entries :
  qualifying_entries w conns entries ->
  forall entry, In entry entries ->
  exists conn, In conn conns /\ resolves w conn entry.
Proof.
  induction 1 as [|conn rest e es R _ IH|conn rest es _ _ IH];
    intros entry I.
  - destruct I.
  - destruct I as [<-|I].
    + exists conn. split; [now left|exact R].
    + destruct (IH _ I) as (c & Ic & Rc). exists c. split; [now right|exact Rc].
  - destruct (IH _ I) as (c & Ic & Rc). exists c. split; [now right|exact Rc].
Qed.

(** X18.  Every entry of the census comes from an enumerated connection that
    is established and has a PID other than [None] and [0]; its name is the
    one the process lookup gave for that PID, and its addresses are those of
    the connection, the remote one being ["N/A"] when the connection has
    none.  Connections in other states, without PID, or whose process is
    gone or inaccessible yield no entry. *)
Theorem census_entries_established
    (w : World) (self : InternetMonitor) (entry : ProcessEntry) :
  In entry (fst (get_network_processes w self)) ->
  status entry = CONN_ESTABLISHED
  /\ pid entry <> 0
  /\ process_lookup w (pid entry) = ProcessName (name entry)
  /\ exists conns conn,
       net_connections w = Ok conns
       /\ In conn conns
       /\ conn_status conn = CONN_ESTABLISHED
       /\ conn_pid conn = Some (pid entry)
       /\ local_address entry = format_addr (conn_laddr conn)
       /\ remote_address entry =
          match conn_raddr conn with
          | Some r => format_addr r
          | None => "N/A"
          end.
Proof.
  unfold get_network_processes.
  destruct (net_connections w) as [conns|e] eqn:N; cbn [fst]; [|intros []].
  destruct (scan_connections_spec w conns [])
    as (scanned & rest & entries & C & _ & Q & F & _).
  intros H.
  assert (I : In entry entries).
  { destruct (scan_connections w conns []) as [ps [e|]];
      cbn [fst app] in *; subst ps; exact (in_firstn _ _ _ H). }
  destruct (qualifying_entries_in _ _ _ Q _ I) as (conn & Ic & R).
  destruct R as (S & p & n & P & Z & L & ->).
  cbn [status pid name local_address remote_address].
  split; [reflexivity|]. split; [exact Z|]. split; [exact L|].
  exists conns, conn. split; [reflexivity|]. split.
  { rewrite C. apply in_or_app. now left. }
  split; [exact S|]. split; [exact P|]. split; reflexivity.
Qed.

Lemma census_entries_established_witness :
  fst (get_network_processes w_upload_fails blank) =
    [ {| pid := 1001; name := "curl";
         local_address := "192.168.1.7:40001";
         remote_address := "93.184.216.34:443";
         status := "ESTABLISHED" |} ]
  /\ process_lookup w_upload_fails 1001 = ProcessName "curl".
Proof.
  assert (E : fst (get_network_processes w_upload_fails blank) =
    [ {| pid := 1001; name := "curl";
         local_address := "192.168.1.7:40001";
         remote_address := "93.184.216.34:443";
         status := "ESTABLISHED" |} ]) by reflexivity.
  split; [exact E|].
  assert (I : In {| pid := 1001; name := "curl";
                    local_address := "192.168.1.7:40001";
                    remote_address := "93.184.216.34:443";
                    status := "ESTABLISHED" |}
                (fst (get_network_processes w_upload_fails blank))).
  { rewrite E. now left. }
  exact (proj1 (proj2 (proj2
           (census_entries_established w_upload_fails blank _ I)))).
Defined.

(** ** Counters that go backwards *)

Lemma binary_round_aux_opp s m e l :
  binary_round_aux PyFloat.prec PyFloat.emax (negb s) m e l =
  SFopp (binary_round_aux PyFloat.prec PyFloat.emax s m e l).
Proof.
  unfold binary_round_aux.
  destruct (shr_fexp _ _ m e l) as [mrs' e'].
  destruct (shr_fexp _ _ _ e' loc_Exact) as [mrs'' e''].
  destruct (shr_m mrs''); try reflexivity.
  now destruct (Z.leb e'' _).
Qed.

Lemma fdiv_opp x y :
  PyFloat.fdiv (SFopp x) y = SFopp (PyFloat.fdiv x y).
Proof.
  unfold PyFloat.fdiv.
  destruct x as [sx|sx| |sx mx ex], y as [sy|sy| |sy my ey]; cbn [SFopp SFdiv];
    try reflexivity; try (now destruct sx, sy).
  destruct (SFdiv_core_binary _ _ _ _ _ _) as [[mz ez] lz].
  rewrite <- binary_round_aux_opp. now destruct sx, sy.
Qed.

Lemma round2_opp x : PyFloat.round2 (SFopp x) = SFopp (PyFloat.round2 x).
Proof.
  destruct x as [s|s| |s m e]; cbn [SFopp PyFloat.round2]; try reflexivity.
  destruct (PyFloat.hundredths m e) as [|h|h]; try reflexivity.
  change (S754_finite (negb s) h 0) with (SFopp (S754_finite s h 0)).
  apply fdiv_opp.
Qed.

(** X19.  Rates are not clamped at zero: a counter that fell by [d] bytes
    since the previous sample is reported as the negative of the rate for a
    growth of [d] bytes. *)
Theorem rate_of_decrease (d : Z) :
  d <> 0 -> rate_kbps (- d) = SFopp (rate_kbps d).
Proof.
  intros N. unfold rate_kbps, PyFloat.fdiv_int, PyFloat.int_truediv.
  rewrite Z.mul_opp_l.
  assert (E : PyFloat.exact_int (- (d * 8)) =
              SFopp (PyFloat.exact_int (d * 8))).
  { destruct (d * 8) eqn:M; [lia|reflexivity..]. }
  now rewrite E, !fdiv_opp, round2_opp.
Qed.

Lemma rate_of_decrease_witness :
  102400 <> 0
  /\ rate_kbps (- 102400) = S754_finite true 5629499534213120 (-46)
  /\ exists reading,
       fst (get_traffic_usage (host (answers 200) (Ok (5000, 7000)) (Ok []))
              (set_traffic_stats {| sent := 107400; recv := 7000 |} blank))
       = Return reading
       /\ sent_rate_kbps reading = rate_kbps (- 102400).
Proof.
  assert (N : 102400 <> 0) by discriminate.
  pose proof (rate_of_decrease 102400 N) as R.
  rewrite rate_kbps_102400 in R.
  split; [exact N|]. split; [exact R|].
  eexists. split; reflexivity.
Defined.
